(** * Attendance Processor: the parsing and aggregation pipeline of [app.py]

    A shallow embedding of [decode_file], [clean_datetime] and [process_file]
    together with the pandas operations they call, followed by the properties
    of the pipeline.

    Conventions of the embedding.
    - A Python [str] is the list of its code points ([pystr]); a [bytes]
      object is the list of its byte values.
    - A raised exception is a value [Raise e] of the [result] type; the
      exception kinds are those Python, pandas and the codecs raise on the
      paths of [process_file].
    - [dateutil.parser.parse] is a parameter of the development (Section
      variable [parse]); it is assumed to return naive datetimes inside the
      range of a pandas [Timestamp]. *)

From Stdlib Require Import String Ascii DecimalString.
From Stdlib Require Import List ZArith NArith Bool Lia.
From Stdlib Require Import Sorting.Permutation Sorting.Sorted.
Import ListNotations.

Local Open Scope N_scope.

(** ** Python strings *)

Definition char := N.
Definition pystr := list char.

(** A string literal as its code points. *)
Definition str (s : string) : pystr :=
  map N_of_ascii (list_ascii_of_string s).

Definition TAB : char := 9.
Definition LF : char := 10.
Definition CR : char := 13.
Definition DOT : char := 46.

Definition pystr_eqb (a b : pystr) : bool :=
  if list_eq_dec N.eq_dec a b then true else false.

Definition opt_pystr_eqb (a b : option pystr) : bool :=
  match a, b with
  | Some x, Some y => pystr_eqb x y
  | None, None => true
  | _, _ => false
  end.

(** [str.isspace] on one code point: the characters [str.strip()] removes. *)
Definition isspace (c : char) : bool :=
  ((9 <=? c) && (c <=? 13)) || ((28 <=? c) && (c <=? 32))
  || (c =? 133) || (c =? 160) || (c =? 5760)
  || ((8192 <=? c) && (c <=? 8202))
  || (c =? 8232) || (c =? 8233) || (c =? 8239) || (c =? 8287) || (c =? 12288).

Fixpoint lstrip (s : pystr) : pystr :=
  match s with
  | [] => []
  | c :: t => if isspace c then lstrip t else s
  end.

Definition rstrip (s : pystr) : pystr := rev (lstrip (rev s)).

(** [s.strip()] *)
Definition strip (s : pystr) : pystr := rstrip (lstrip s).

(** Line boundaries recognised by [str.splitlines]. *)
Definition is_linebreak (c : char) : bool :=
  ((10 <=? c) && (c <=? 13)) || ((28 <=? c) && (c <=? 30))
  || (c =? 133) || (c =? 8232) || (c =? 8233).

(** [text.splitlines()]: [cur] holds the current line reversed.  A final
    line break does not open an empty last line, and CR LF is one break. *)
Fixpoint splitlines_from (cur : pystr) (s : pystr) : list pystr :=
  match s with
  | [] => match cur with [] => [] | _ => [rev cur] end
  | c :: t =>
      if is_linebreak c then
        if c =? CR then
          match t with
          | c' :: t' =>
              if c' =? LF then rev cur :: splitlines_from [] t'
              else rev cur :: splitlines_from [] t
          | [] => rev cur :: splitlines_from [] t
          end
        else rev cur :: splitlines_from [] t
      else splitlines_from (c :: cur) t
  end.

Definition splitlines (s : pystr) : list pystr := splitlines_from [] s.

(** [s.split(sep)] for a one-character separator: never the empty list. *)
Fixpoint split_char (sep : char) (s : pystr) : list pystr :=
  match s with
  | [] => [[]]
  | c :: t =>
      if c =? sep then [] :: split_char sep t
      else match split_char sep t with
           | h :: r => (c :: h) :: r
           | [] => [[c]]
           end
  end.

Fixpoint startswith (p s : pystr) : bool :=
  match p, s with
  | [], _ => true
  | _ :: _, [] => false
  | a :: p', b :: s' => (a =? b) && startswith p' s'
  end.

(** [s.split('...')[0]]: what precedes the first occurrence of three dots. *)
Fixpoint before_dots (s : pystr) : pystr :=
  match s with
  | [] => []
  | c :: t => if startswith [DOT; DOT; DOT] s then [] else c :: before_dots t
  end.

(** Lexicographic comparison of strings by code point (Python's [<]). *)
Fixpoint pystr_compare (a b : pystr) : comparison :=
  match a, b with
  | [], [] => Eq
  | [], _ :: _ => Lt
  | _ :: _, [] => Gt
  | x :: a', y :: b' =>
      match x ?= y with
      | Eq => pystr_compare a' b'
      | c => c
      end
  end.

Definition pystr_leb (a b : pystr) : bool :=
  match pystr_compare a b with Gt => false | _ => true end.

(** ** Exceptions *)

Inductive exn : Type :=
| UnicodeDecodeError
| ValueError
| KeyError
| AttributeError
| TypeError.

Inductive result (A : Type) : Type :=
| Ok (a : A)
| Raise (e : exn).
Arguments Ok {A} a.
Arguments Raise {A} e.

Definition bind {A B : Type} (r : result A) (k : A -> result B) : result B :=
  match r with
  | Ok a => k a
  | Raise e => Raise e
  end.

Notation "x <- r ;; k" := (bind r (fun x => k))
  (at level 61, r at next level, right associativity).

(** ** The codecs behind [bytes.decode] *)

Definition bytes := list N.

(** Two bytes make one 16-bit code unit; a lone last byte is truncated data. *)
Fixpoint code_units (big_endian : bool) (b : bytes) : option (list N) :=
  match b with
  | [] => Some []
  | [_] => None
  | b0 :: b1 :: rest =>
      if (b0 <? 256) && (b1 <? 256) then
        option_map (cons (if big_endian then 256 * b0 + b1 else b0 + 256 * b1))
                   (code_units big_endian rest)
      else None
  end.

(** Code units to code points: a high surrogate must be followed by a low
    one, and a low surrogate cannot stand alone. *)
Fixpoint join_surrogates (u : list N) : option pystr :=
  match u with
  | [] => Some []
  | w :: rest =>
      if (w <? 0xD800) || (0xDFFF <? w) then
        option_map (cons w) (join_surrogates rest)
      else if w <? 0xDC00 then
        match rest with
        | w2 :: rest' =>
            if (0xDC00 <=? w2) && (w2 <=? 0xDFFF) then
              option_map (cons (0x10000 + (w - 0xD800) * 0x400 + (w2 - 0xDC00)))
                         (join_surrogates rest')
            else None
        | [] => None
        end
      else None
  end.

Definition utf_16_body (big_endian : bool) (b : bytes) : option pystr :=
  match code_units big_endian b with
  | Some u => join_surrogates u
  | None => None
  end.

(** [content.decode('utf-16')] with strict errors: a leading byte-order mark
    selects the byte order and is skipped; without one the byte order is the
    machine's, taken little-endian here.  [None] is [UnicodeDecodeError]. *)
Definition utf_16_decode (b : bytes) : option pystr :=
  match b with
  | b0 :: b1 :: rest =>
      if (b0 =? 0xFF) && (b1 =? 0xFE) then utf_16_body false rest
      else if (b0 =? 0xFE) && (b1 =? 0xFF) then utf_16_body true rest
      else utf_16_body false b
  | _ => utf_16_body false b
  end.

Definition is_cont (b : N) : bool := (0x80 <=? b) && (b <=? 0xBF).

(** [content.decode('utf-8')] with strict errors: shortest forms only,
    no surrogates, nothing above U+10FFFF; a byte-order mark is not removed. *)
Fixpoint utf_8_decode (b : bytes) : option pystr :=
  match b with
  | [] => Some []
  | b0 :: r0 =>
      if b0 <? 0x80 then option_map (cons b0) (utf_8_decode r0)
      else if (0xC2 <=? b0) && (b0 <=? 0xDF) then
        match r0 with
        | b1 :: r1 =>
            if is_cont b1 then
              option_map (cons ((b0 - 0xC0) * 64 + (b1 - 0x80))) (utf_8_decode r1)
            else None
        | _ => None
        end
      else if (0xE0 <=? b0) && (b0 <=? 0xEF) then
        match r0 with
        | b1 :: b2 :: r2 =>
            if is_cont b1 && is_cont b2
               && (negb (b0 =? 0xE0) || (0xA0 <=? b1))
               && (negb (b0 =? 0xED) || (b1 <=? 0x9F)) then
              option_map
                (cons ((b0 - 0xE0) * 4096 + (b1 - 0x80) * 64 + (b2 - 0x80)))
                (utf_8_decode r2)
            else None
        | _ => None
        end
      else if (0xF0 <=? b0) && (b0 <=? 0xF4) then
        match r0 with
        | b1 :: b2 :: b3 :: r3 =>
            if is_cont b1 && is_cont b2 && is_cont b3
               && (negb (b0 =? 0xF0) || (0x90 <=? b1))
               && (negb (b0 =? 0xF4) || (b1 <=? 0x8F)) then
              option_map
                (cons ((b0 - 0xF0) * 262144 + (b1 - 0x80) * 4096
                       + (b2 - 0x80) * 64 + (b3 - 0x80)))
                (utf_8_decode r3)
            else None
        | _ => None
        end
      else None
  end.

(** [decode_file]: UTF-16 is tried first; only a [UnicodeDecodeError] leads
    to the UTF-8 attempt, whose own failure propagates. *)
Definition decode_file (content : bytes) : result pystr :=
  match utf_16_decode content with
  | Some text => Ok text
  | None =>
      match utf_8_decode content with
      | Some text => Ok text
      | None => Raise UnicodeDecodeError
      end
  end.

(** ** Timestamps *)

Local Open Scope Z_scope.

(** A naive [datetime] as the parser returns it. *)
Record datetime : Type := mk_datetime {
  year : Z; month : Z; day : Z;
  hour : Z; minute : Z; second : Z; microsecond : Z
}.

Definition is_leap (y : Z) : bool :=
  (y mod 4 =? 0) && (negb (y mod 100 =? 0) || (y mod 400 =? 0)).

Definition days_before_year (y : Z) : Z :=
  let p := y - 1 in p * 365 + p / 4 - p / 100 + p / 400.

Definition days_before_month (y m : Z) : Z :=
  nth (Z.to_nat m) [0; 0; 31; 59; 90; 120; 151; 181; 212; 243; 273; 304; 334] 0
  + (if (2 <? m) && is_leap y then 1 else 0).

(** Proleptic Gregorian ordinal of a calendar day. *)
Definition ymd2ord (y m d : Z) : Z :=
  days_before_year y + days_before_month y m + d.

(** The instant as one integer (microseconds); pandas orders, compares and
    subtracts timestamps through such a value. *)
Definition value (t : datetime) : Z :=
  (((ymd2ord (year t) (month t) (day t) * 24 + hour t) * 60 + minute t) * 60
   + second t) * 1000000 + microsecond t.

(** Decimal digits of a non-negative number, at least [w] of them
    (the [:02] of the format and the zero padding of [strftime]). *)
Definition zfill (w : nat) (n : Z) : pystr :=
  let d := str (NilEmpty.string_of_uint (N.to_uint (Z.to_N n))) in
  repeat 48%N (w - length d) ++ d.

Definition COLON : char := 58%N.
Definition DASH : char := 45%N.

(** [strftime('%Y-%m-%d')] *)
Definition strftime_Ymd (t : datetime) : pystr :=
  zfill 4 (year t) ++ [DASH] ++ zfill 2 (month t) ++ [DASH] ++ zfill 2 (day t).

(** [strftime('%H:%M:%S')] *)
Definition strftime_HMS (t : datetime) : pystr :=
  zfill 2 (hour t) ++ [COLON] ++ zfill 2 (minute t) ++ [COLON]
  ++ zfill 2 (second t).

(** [strftime('%H:%M')] *)
Definition strftime_HM (t : datetime) : pystr :=
  zfill 2 (hour t) ++ [COLON] ++ zfill 2 (minute t).

(** The [duration_str] lambda on a non-null duration [d] (microseconds):
    [total_seconds()//3600] and [(total_seconds()%3600)//60], each [:02]. *)
Definition format_duration (d : Z) : pystr :=
  zfill 2 (d / 3600000000) ++ [COLON] ++ zfill 2 ((d mod 3600000000) / 60000000).

(** ** Sorting *)

Section Sorting.
Context {A : Type}.
Variable leb : A -> A -> bool.

(** [x] goes in front of the first element it does not exceed, so that
    among equal elements the one inserted last stands first. *)
Fixpoint insert (x : A) (l : list A) : list A :=
  match l with
  | [] => [x]
  | y :: t => if leb x y then x :: l else y :: insert x t
  end.

(** Insertion sort from the right end: rows with equal keys keep their
    relative order.  ([sort_values] with its default sorting kind leaves the
    order of rows with equal keys open; the properties below that speak of
    the order use no more than that the result is ascending.) *)
Definition sort_by (l : list A) : list A := fold_right insert [] l.
End Sorting.

(** ** Frames *)

Definition row := list (option pystr).

Record frame : Type := mk_frame {
  columns : list pystr;
  rows : list row
}.

(** Number of fields of the longest data line. *)
Definition width (data : list (list pystr)) : nat :=
  fold_right (fun r m => Nat.max (List.length r) m) 0%nat data.

(** A shorter line is completed with missing values. *)
Definition pad (k : nat) (r : list pystr) : row :=
  map Some r ++ repeat None (k - List.length r).

(** [pd.DataFrame(data, columns=header)] on a list of lists: the lines are
    laid out in an array as wide as the longest of them, and the number of
    column labels must be that width.  Without data lines the frame is empty
    and carries the labels. *)
Definition DataFrame (data : list (list pystr)) (header : list pystr)
  : result frame :=
  match data with
  | [] => Ok (mk_frame header [])
  | _ :: _ =>
      if Nat.eqb (width data) (List.length header)
      then Ok (mk_frame header (map (pad (width data)) data))
      else Raise ValueError
  end.

Fixpoint position (name : pystr) (cols : list pystr) : option nat :=
  match cols with
  | [] => None
  | c :: t => if pystr_eqb c name then Some 0%nat
              else option_map S (position name t)
  end.

(** [df[name]]: where the column stands, [KeyError] when no label matches.
    Column labels are taken to be pairwise distinct. *)
Definition column (df : frame) (name : pystr) : result nat :=
  match position name (columns df) with
  | Some i => Ok i
  | None => Raise KeyError
  end.

Definition cell (i : nat) (r : row) : option pystr := nth i r None.

(** [df['Name'].str.strip() != ''] on one cell: a missing value compares
    unequal to every string. *)
Definition name_kept (c : option pystr) : bool :=
  match c with
  | Some s => negb (pystr_eqb (strip s) [])
  | None => true
  end.

(** [df['EnNo'].str.strip() != '00000000'] on one cell. *)
Definition enno_kept (c : option pystr) : bool :=
  match c with
  | Some s => negb (pystr_eqb (strip s) (str "00000000"))
  | None => true
  end.

(** The lambda of the [DateTime_clean] column. *)
Definition DateTime_clean_of (x : option pystr) : pystr :=
  match x with
  | Some s => strip (before_dots s)
  | None => []
  end.

(** Element type of a column and the guard of the [.dt] accessor. *)
Inductive dtype : Type := object_dtype | datetime64.

Definition is_some {A : Type} (o : option A) : bool :=
  match o with Some _ => true | None => false end.

(** The [dt] column is built from Python objects: it becomes a datetime
    column only when it holds at least one datetime; an empty column or one
    of [None] only stays an object column. *)
Definition infer_dtype (col : list (option datetime)) : dtype :=
  if existsb is_some col then datetime64 else object_dtype.

Definition dt_accessor (ty : dtype) : result unit :=
  match ty with
  | datetime64 => Ok tt
  | object_dtype => Raise AttributeError
  end.

(** A row after the cleaning step, with its [dt] cell possibly null. *)
Record cleaned : Type := mk_cleaned {
  c_cells : row;
  c_Name : option pystr;
  c_EnNo : option pystr;
  c_DateTime_clean : pystr;
  c_dt : option datetime
}.

(** A row of the frame [process_file] returns first: the cells of the line
    under the header's labels and the four derived columns.  [Name] and
    [EnNo] repeat the cells of these two columns. *)
Record event : Type := mk_event {
  cells : row;
  Name : option pystr;
  EnNo : option pystr;
  DateTime_clean : pystr;
  dt : datetime;
  Date : pystr;
  time_s : pystr
}.

(** [dropna(subset=['dt'])] followed by the two [strftime] columns. *)
Definition with_date (c : cleaned) : list event :=
  match c_dt c with
  | Some d => [mk_event (c_cells c) (c_Name c) (c_EnNo c) (c_DateTime_clean c)
                        d (strftime_Ymd d) (strftime_HMS d)]
  | None => []
  end.

Definition dropna_dated (l : list cleaned) : list event := flat_map with_date l.

(** [sort_values('dt')] *)
Definition dt_leb (a b : event) : bool := value (dt a) <=? value (dt b).
Definition sort_values (l : list event) : list event := sort_by dt_leb l.

(** [drop_duplicates(subset=['Name', 'Date', 'time_s'], keep='first')] *)
Definition triple : Type := option pystr * pystr * pystr.

Definition key3 (e : event) : triple := (Name e, Date e, time_s e).

Definition triple_eqb (a b : triple) : bool :=
  let '(n1, d1, t1) := a in
  let '(n2, d2, t2) := b in
  opt_pystr_eqb n1 n2 && pystr_eqb d1 d2 && pystr_eqb t1 t2.

Fixpoint drop_duplicates_from (seen : list triple) (l : list event)
  : list event :=
  match l with
  | [] => []
  | e :: t =>
      if existsb (triple_eqb (key3 e)) seen then drop_duplicates_from seen t
      else e :: drop_duplicates_from (key3 e :: seen) t
  end.

Definition drop_duplicates (l : list event) : list event :=
  drop_duplicates_from [] l.

(** The de-bursting step of [process_file]. *)
Definition deburst (l : list event) : list event :=
  drop_duplicates (sort_values l).

(** ** Grouping, joining and aggregation *)

(** A group key [(Name, Date)]; groups are ordered by name, then date. *)
Definition gkey : Type := pystr * pystr.

Definition pair_compare (a b : pystr * pystr) : comparison :=
  match pystr_compare (fst a) (fst b) with
  | Eq => pystr_compare (snd a) (snd b)
  | c => c
  end.

Definition pair_leb (a b : pystr * pystr) : bool :=
  match pair_compare a b with Gt => false | _ => true end.

(** Insertion into an ascending list of distinct pairs. *)
Fixpoint insert_key (k : gkey) (l : list gkey) : list gkey :=
  match l with
  | [] => [k]
  | y :: t =>
      match pair_compare k y with
      | Lt => k :: l
      | Eq => l
      | Gt => y :: insert_key k t
      end
  end.

(** The keys of [groupby(['Name', 'Date'])]: rows with a missing name belong
    to no group; the keys come out sorted. *)
Definition group_keys (l : list event) : list gkey :=
  fold_right (fun e acc => match Name e with
                           | Some n => insert_key (n, Date e) acc
                           | None => acc
                           end) [] l.

Definition in_group (k : gkey) (e : event) : bool :=
  opt_pystr_eqb (Name e) (Some (fst k)) && pystr_eqb (Date e) (snd k).

Definition group (l : list event) (k : gkey) : list event :=
  filter (in_group k) l.

Definition earlier (a b : datetime) : datetime :=
  if value b <? value a then b else a.

Definition later (a b : datetime) : datetime :=
  if value a <? value b then b else a.

(** [.min()] and [.max()] of a non-empty column [d :: l]. *)
Definition min_dt (d : datetime) (l : list datetime) : datetime :=
  fold_left earlier l d.

Definition max_dt (d : datetime) (l : list datetime) : datetime :=
  fold_left later l d.

Definition aggregate (f : datetime -> list datetime -> datetime)
  (l : list event) : list (gkey * datetime) :=
  flat_map (fun k => match map dt (group l k) with
                     | d :: t => [(k, f d t)]
                     | [] => []
                     end) (group_keys l).

(** [df.groupby(['Name', 'Date'])['dt'].min().reset_index()] *)
Definition groupby_min : list event -> list (gkey * datetime) :=
  aggregate min_dt.

(** [df.groupby(['Name', 'Date'])['dt'].max().reset_index()] *)
Definition groupby_max : list event -> list (gkey * datetime) :=
  aggregate max_dt.

Fixpoint lookup (k : gkey) (l : list (gkey * datetime)) : option datetime :=
  match l with
  | [] => None
  | (k', d) :: t =>
      match pair_compare k k' with
      | Eq => Some d
      | _ => lookup k t
      end
  end.

(** A row of [merged]. *)
Record merged_row : Type := mk_merged_row {
  m_Name : pystr;
  m_Date : pystr;
  IN : option datetime;
  OUT : option datetime;
  IN_str : option pystr;
  OUT_str : option pystr;
  duration : option Z;
  duration_str : pystr
}.

(** The [duration] lambda: the difference when both ends are present and
    ordered, a null duration otherwise. *)
Definition duration_of (i o : option datetime) : option Z :=
  match i, o with
  | Some a, Some b => if value a <=? value b then Some (value b - value a)
                      else None
  | _, _ => None
  end.

Definition duration_str_of (d : option Z) : pystr :=
  match d with
  | Some x => format_duration x
  | None => []
  end.

Definition merge_row (ins outs : list (gkey * datetime)) (k : gkey)
  : merged_row :=
  let i := lookup k ins in
  let o := lookup k outs in
  let d := duration_of i o in
  mk_merged_row (fst k) (snd k) i o
                (option_map strftime_HM i) (option_map strftime_HM o)
                d (duration_str_of d).

(** [pd.merge(ins, outs, on=['Name', 'Date'], how='outer')] with the four
    derived columns: one row per key of either side, keys ascending. *)
Definition merge_outer (ins outs : list (gkey * datetime)) : list merged_row :=
  map (merge_row ins outs)
      (fold_right insert_key [] (map fst ins ++ map fst outs)).

Definition aggregate_days (l : list event) : list merged_row :=
  merge_outer (groupby_min l) (groupby_max l).

(** ** Reshaping *)

(** The wide table: column labels are pairs, the first column being the
    name column that [reset_index] brings back. *)
Record table : Type := mk_table {
  t_columns : list (pystr * pystr);
  t_rows : list (list (option pystr))
}.

Definition value_columns : list pystr := [str "IN"; str "OUT"; str "Hours"].

Fixpoint insert_str (s : pystr) (l : list pystr) : list pystr :=
  match l with
  | [] => [s]
  | y :: t =>
      match pystr_compare s y with
      | Lt => s :: l
      | Eq => l
      | Gt => y :: insert_str s t
      end
  end.

(** Distinct values of an index level, ascending. *)
Definition level_values (l : list pystr) : list pystr :=
  fold_right insert_str [] l.

(** Column labels after [unstack('Date')]: the value columns in their order
    in the frame, each spread over the dates. *)
Definition unstack_columns (m : list merged_row) : list (pystr * pystr) :=
  flat_map (fun c => map (fun d => (c, d)) (level_values (map m_Date m)))
           value_columns.

(** [(date, col) for col, date in reshaped.columns] *)
Definition swap_levels (cols : list (pystr * pystr)) : list (pystr * pystr) :=
  map (fun cd => (snd cd, fst cd)) cols.

(** [sort_index(axis=1, level=0)]: [sort_remaining] keeps its default
    [True], so the labels are ordered on the first level and then on the
    second one. *)
Definition sort_index_columns (cols : list (pystr * pystr))
  : list (pystr * pystr) := sort_by pair_leb cols.

Definition reshaped_columns (m : list merged_row) : list (pystr * pystr) :=
  sort_index_columns (swap_levels (unstack_columns m)).

Fixpoint find_row (n d : pystr) (m : list merged_row) : option merged_row :=
  match m with
  | [] => None
  | r :: t => if pystr_eqb (m_Name r) n && pystr_eqb (m_Date r) d
              then Some r else find_row n d t
  end.

Definition field (c : pystr) (r : merged_row) : option pystr :=
  if pystr_eqb c (str "IN") then IN_str r
  else if pystr_eqb c (str "OUT") then OUT_str r
  else Some (duration_str r).

(** The cell under label [(date, col)] in the row of [n]; [None] is the
    missing value [unstack] fills in. *)
Definition table_cell (m : list merged_row) (n : pystr) (dc : pystr * pystr)
  : option pystr :=
  match find_row n (fst dc) m with
  | Some r => field (snd dc) r
  | None => None
  end.

(** Lines 70 to 77.  A frame [merged] without rows arises only when every
    surviving row lacks its name; the unstacked frame then has no column and
    the run is taken to end in the [TypeError] of [MultiIndex.from_tuples]
    on an empty list.  No property below depends on that case. *)
Definition reshape (m : list merged_row) : result table :=
  match m with
  | [] => Raise TypeError
  | _ :: _ =>
      let cols := reshaped_columns m in
      Ok (mk_table ((str "Name", []) :: cols)
            (map (fun n => Some n :: map (table_cell m n) cols)
                 (level_values (map m_Name m))))
  end.

(** ** The pipeline *)

Section Pipeline.

(** [dateutil.parser.parse]; [None] stands for any exception it raises. *)
Variable parse : pystr -> option datetime.

Definition clean_datetime (dt_str : option pystr) : option datetime :=
  match dt_str with
  | None => None
  | Some s => parse (strip (before_dots s))
  end.

Definition clean_row (iName iEnNo iDateTime : nat) (r : row) : cleaned :=
  let c := DateTime_clean_of (cell iDateTime r) in
  mk_cleaned r (cell iName r) (cell iEnNo r) c (clean_datetime (Some c)).

Definition nonblank (l : pystr) : bool :=
  match strip l with [] => false | _ :: _ => true end.

Definition header_of (first : pystr) : list pystr :=
  split_char TAB (strip first).

Definition data_of (rest : list pystr) : list (list pystr) :=
  map (fun l => split_char TAB (strip l)) (filter nonblank rest).

(** Lines 43 to 55: from the lines of the file to the dated rows. *)
Definition parse_rows (first : pystr) (rest : list pystr)
  : result (list event) :=
  df <- DataFrame (data_of rest) (header_of first) ;;
  iName <- column df (str "Name") ;;
  iEnNo <- column df (str "EnNo") ;;
  let kept := filter (fun r => name_kept (cell iName r)
                               && enno_kept (cell iEnNo r)) (rows df) in
  iDateTime <- column df (str "DateTime") ;;
  let cl := map (clean_row iName iEnNo iDateTime) kept in
  _ <- dt_accessor (infer_dtype (map c_dt cl)) ;;
  Ok (dropna_dated cl).

(** [process_file] on the decoded text: [Ok None] is the triple of
    [None]s returned for a text without lines.  The first component is
    [df], given with its column labels. *)
Definition process_text (text : pystr)
  : result (option (list pystr * list event * list merged_row * table)) :=
  match splitlines text with
  | [] => Ok None
  | first :: rest =>
      evs <- parse_rows first rest ;;
      let df := deburst evs in
      let merged := aggregate_days df in
      reshaped <- reshape merged ;;
      Ok (Some (header_of first, df, merged, reshaped))
  end.

Definition process_file (uploaded_file : bytes)
  : result (option (list pystr * list event * list merged_row * table)) :=
  text <- decode_file uploaded_file ;;
  process_text text.

(** *** The page *)

(** [f"{col[0]} {col[1]}"] on every label of the table. *)
Definition flatten_columns (t : table) : list pystr :=
  map (fun c => fst c ++ [32%N] ++ snd c) (t_columns t).

(** What the script puts on the page for one run. *)
Inductive screen : Type :=
| PleaseUpload
| NoDataParsed
| Tables (display_columns : list pystr)
         (display_rows : list (list (option pystr)))
         (parsed_rows : list (list (option pystr) * datetime)).

(** The columns the expander selects from [df] besides [dt]. *)
Definition detail_columns : list pystr :=
  [str "Name"; str "EnNo"; str "In/Out"; str "Mode"; str "DateTime"].

Fixpoint positions (names cols : list pystr) : result (list nat) :=
  match names with
  | [] => Ok []
  | n :: t =>
      match position n cols with
      | Some i => rest <- positions t cols ;; Ok (i :: rest)
      | None => Raise KeyError
      end
  end.

(** Lines 80 to 96.  An exception of the expander, raised after the table
    was drawn, is the result of the run all the same. *)
Definition run_page (uploaded_file : option bytes) : result screen :=
  match uploaded_file with
  | None => Ok PleaseUpload
  | Some f =>
      r <- process_file f ;;
      match r with
      | None => Ok NoDataParsed
      | Some (header, df, _, reshaped) =>
          sel <- positions detail_columns header ;;
          Ok (Tables (flatten_columns reshaped) (t_rows reshaped)
                     (map (fun e => (map (fun i => cell i (cells e)) sel, dt e))
                          df))
      end
  end.

End Pipeline.

(** ** A parser and files for the examples *)

Definition digit_value (c : char) : option Z :=
  if ((48 <=? c) && (c <=? 57))%N then Some (Z.of_N c - 48) else None.

Fixpoint number_from (acc : Z) (s : pystr) : option Z :=
  match s with
  | [] => Some acc
  | c :: t => match digit_value c with
              | Some v => number_from (10 * acc + v) t
              | None => None
              end
  end.

Definition days_in_month (y m : Z) : Z :=
  if m =? 2 then (if is_leap y then 29 else 28)
  else if (m =? 4) || (m =? 6) || (m =? 9) || (m =? 11) then 30 else 31.

(** One of the many layouts [dateutil] reads: [YYYY-MM-DD HH:MM:SS], with
    the year inside the range of a pandas timestamp.  Any other string is
    rejected, which errs on the side of failure only for strings that the
    examples below do not use. *)
Definition parse_iso (s : pystr) : option datetime :=
  match s with
  | [y1; y2; y3; y4; a; m1; m2; b; d1; d2; sp; h1; h2; c; i1; i2; e; s1; s2] =>
      if ((a =? 45) && (b =? 45) && (sp =? 32) && (c =? 58) && (e =? 58))%N then
        match number_from 0 [y1; y2; y3; y4], number_from 0 [m1; m2],
              number_from 0 [d1; d2], number_from 0 [h1; h2],
              number_from 0 [i1; i2], number_from 0 [s1; s2] with
        | Some y, Some m, Some d, Some h, Some i, Some sec =>
            if (1678 <=? y) && (y <=? 2261) && (1 <=? m) && (m <=? 12)
               && (1 <=? d) && (d <=? days_in_month y m)
               && (h <? 24) && (i <? 60) && (sec <? 60)
            then Some (mk_datetime y m d h i sec 0)
            else None
        | _, _, _, _, _, _ => None
        end
      else None
  | _ => None
  end.

(** Fields joined by tabs, lines ended by a line feed. *)
Definition tsv_line (fields : list string) : pystr :=
  match fields with
  | [] => []
  | f :: t => str f ++ flat_map (fun g => TAB :: str g) t
  end.

Definition tsv (lines : list (list string)) : pystr :=
  flat_map (fun l => tsv_line l ++ [LF]) lines.

Definition alog_header : list string :=
  ["No"; "TMNo"; "EnNo"; "Name"; "GMNo"; "Mode"; "In/Out"; "Antipass";
   "DateTime"]%string.

(** The header as [process_file] takes it: the first line, whatever it
    holds; [None] when the text has no line. *)
Definition file_header (text : pystr) : option (list pystr) :=
  match splitlines text with
  | [] => None
  | first :: _ => Some (header_of first)
  end.

(** The header as the specification words it: the first non-empty line. *)
Definition spec_header (text : pystr) : option (list pystr) :=
  option_map header_of
    (find (fun l => match l with [] => false | _ :: _ => true end)
          (splitlines text)).

(** The rows of [df] in a result, none when the run raised or returned the
    triple of [None]s. *)
Definition events_of
  (r : result (option (list pystr * list event * list merged_row * table)))
  : list event :=
  match r with
  | Ok (Some (_, df, _, _)) => df
  | _ => []
  end.

Definition table_of
  (r : result (option (list pystr * list event * list merged_row * table)))
  : option table :=
  match r with
  | Ok (Some (_, _, _, t)) => Some t
  | _ => None
  end.

(** *** Sample files *)

Definition punch (no enno name inout datetime : string) : list string :=
  [no; "1"; enno; name; "0"; "1"; inout; "0"; datetime]%string.

(** Only the header line. *)
Definition header_only : pystr := tsv [alog_header].

(** One employee, two punches on one day. *)
Definition two_punches : pystr :=
  tsv [alog_header;
       punch "1" "00000007" "Asha" "DutyOn" "2024-01-15 08:00:00";
       punch "2" "00000007" "Asha" "DutyOff" "2024-01-15 17:30:00"].

(** Two people over two days, an annotated timestamp, the sentinel badge
    number and a blank name. *)
Definition two_days : pystr :=
  tsv [alog_header;
       punch "1" "00000007" "Asha" "DutyOn" "2024-01-15 08:00:00";
       punch "2" "00000007" "Asha" "DutyOff" "2024-01-15 17:30:00";
       punch "3" "00000007" "Asha" "DutyOff" "2024-01-16 09:10:00";
       punch "4" "00000009" "Bo" "DutyOff" "2024-01-16 09:10:00...x";
       punch "5" "00000000" "Zed" "DutyOn" "2024-01-16 09:11:00";
       punch "6" "00000011" " " "DutyOn" "2024-01-16 09:12:00"].

(** A single data line whose timestamp is no date. *)
Definition unparsable_only : pystr :=
  tsv [alog_header; punch "1" "00000007" "Asha" "DutyOn" "garbage"].

(** A data line with one field more than the header. *)
Definition one_field_more : pystr :=
  tsv [alog_header;
       List.app (punch "1" "00000007" "Asha" "DutyOn" "2024-01-15 08:00:00")
                ["extra"%string]].

(** A data line with fewer fields than the header, and no longer line. *)
Definition one_field_less : pystr :=
  tsv [alog_header; ["1"; "1"; "00000007"; "Asha"]%string].

(** A short line next to a full one. *)
Definition short_and_full : pystr :=
  tsv [alog_header;
       ["1"; "1"; "00000007"; "Asha"]%string;
       punch "2" "00000007" "Asha" "DutyOff" "2024-01-15 17:30:00"].

(** An empty first line in front of a well-formed file. *)
Definition blank_first_line : pystr := LF :: two_punches.

(** The encoders that produce the device's files, for the examples:
    [str.encode('utf-8')] and [str.encode('utf-16')], the latter with its
    byte-order mark and little-endian code units. *)
Definition utf_8_encode_char (c : N) : bytes :=
  (if c <? 0x80 then [c]
   else if c <? 0x800 then [0xC0 + c / 64; 0x80 + c mod 64]
   else if c <? 0x10000 then
     [0xE0 + c / 4096; 0x80 + (c / 64) mod 64; 0x80 + c mod 64]
   else [0xF0 + c / 262144; 0x80 + (c / 4096) mod 64;
         0x80 + (c / 64) mod 64; 0x80 + c mod 64])%N.

Definition utf_8_encode (t : pystr) : bytes := flat_map utf_8_encode_char t.

Definition utf_16_encode_char (c : N) : bytes :=
  (if c <? 0x10000 then [c mod 256; c / 256]
   else let v := c - 0x10000 in
        let hi := 0xD800 + v / 0x400 in
        let lo := 0xDC00 + v mod 0x400 in
        [hi mod 256; hi / 256; lo mod 256; lo / 256])%N.

Definition utf_16_encode (t : pystr) : bytes :=
  0xFF%N :: 0xFE%N :: flat_map utf_16_encode_char t.

(** *** Sample rows *)

Definition no_event : event :=
  mk_event [] None None [] (mk_datetime 0 0 0 0 0 0 0) [] [].

(** The [n]-th returned row of a file read with [parse_iso]. *)
Definition returned_row (text : pystr) (n : nat) : event :=
  nth n (events_of (process_text parse_iso text)) no_event.

(** The first row returned for [two_days]: Asha's punch of 08:00. *)
Definition asha_first : event := Eval vm_compute in returned_row two_days 0.

(** The dated rows of a file read with [parse_iso], before de-bursting. *)
Definition dated_rows (text : pystr) : list event :=
  match splitlines text with
  | [] => []
  | first :: rest =>
      match parse_rows parse_iso first rest with
      | Ok evs => evs
      | Raise _ => []
      end
  end.

(** Two more punches of Asha in the second of her first one, one of them
    under another badge number. *)
Definition bounce_lines : list (list string) :=
  [punch "3" "00000008" "Asha" "DutyOff" "2024-01-15 08:00:00";
   punch "4" "00000007" "Asha" "DutyOn" "2024-01-15 08:00:00"].

Definition bounces : pystr := tsv (alog_header :: bounce_lines).

(** [two_punches] with the bounced punches in front. *)
Definition bursty : pystr :=
  tsv (alog_header :: bounce_lines ++
       [punch "1" "00000007" "Asha" "DutyOn" "2024-01-15 08:00:00";
        punch "2" "00000007" "Asha" "DutyOff" "2024-01-15 17:30:00"]).

(** Asha's punch of 08:00 in [two_punches]. *)
Definition asha_in : event := Eval vm_compute in nth 0 (dated_rows two_punches) no_event.

(** Strict order of strings and of label pairs. *)
Definition str_lt (a b : pystr) : Prop := pystr_compare a b = Lt.

Definition pair_lt (a b : pystr * pystr) : Prop := pair_compare a b = Lt.

(** The name column of the wide table. *)
Definition name_column (t : table) : list (option pystr) :=
  map (fun r => hd None r) (t_rows t).

(** The two bounced punches as dated rows. *)
Definition bounce_first : event :=
  Eval vm_compute in nth 0 (dated_rows bursty) no_event.

Definition bounce_second : event :=
  Eval vm_compute in nth 1 (dated_rows bursty) no_event.

Definition pair_le (a b : pystr * pystr) : Prop := pair_leb a b = true.

(** The three labels of one date in the order the table has them. *)
Definition date_block (d : pystr) : list (pystr * pystr) :=
  [(d, str "Hours"); (d, str "IN"); (d, str "OUT")].

(** The three labels of one date as the specification orders them. *)
Definition spec_date_block (d : pystr) : list (pystr * pystr) :=
  [(d, str "IN"); (d, str "OUT"); (d, str "Hours")].

(** *** More sample files *)


(** A file with the three columns [process_file] reads and no other. *)
Definition three_columns : pystr :=
  tsv [["Name"; "EnNo"; "DateTime"]%string;
       ["Asha"; "00000007"; "2024-01-15 08:00:00"]%string].

(** Has the row a name? *)
Definition named (e : event) : bool := is_some (Name e).

(** Valid code points: no surrogate, nothing above U+10FFFF. *)
Definition scalar (c : N) : bool :=
  ((c <? 0xD800) || ((0xDFFF <? c) && (c <? 0x110000)))%N.

(** The UTF-16 code units of a code point. *)
Definition utf_16_units (c : N) : list N :=
  (if c <? 0x10000 then [c]
   else [0xD800 + (c - 0x10000) / 0x400; 0xDC00 + (c - 0x10000) mod 0x400])%N.

(** A string without three dots in a row. *)
Definition no_dots (s : pystr) : Prop :=
  forall p q, s = p ++ q -> startswith [DOT; DOT; DOT] q = false.

Definition key_of (r : merged_row) : gkey := (m_Name r, m_Date r).

(** What a run returned, with empty frames for a run that did not. *)
Definition returned_of
  (r : result (option (list pystr * list event * list merged_row * table)))
  : list pystr * list event * list merged_row * table :=
  match r with
  | Ok (Some x) => x
  | _ => ([], [], [], mk_table [] [])
  end.

(** The frames returned for [two_punches]. *)
Definition two_punches_frames
  : list pystr * list event * list merged_row * table :=
  Eval vm_compute in returned_of (process_text parse_iso two_punches).

(** Asha's only punch of 2024-01-16 in [two_days]. *)
Definition asha_next_day : event :=
  Eval vm_compute in nth 2 (dated_rows two_days) no_event.

(** The first row of [merged] for [two_days]. *)
Definition asha_first_day : merged_row :=
  Eval vm_compute in
    nth 0 (aggregate_days (deburst (dated_rows two_days)))
        (mk_merged_row [] [] None None None None None []).

(** The flattened labels of one date. *)
Definition date_labels (d : pystr) : list pystr :=
  [d ++ str " Hours"; d ++ str " IN"; d ++ str " OUT"].

(** The table of [two_days] and its row for Bo. *)
Definition two_days_table : table :=
  Eval vm_compute in
    match table_of (process_text parse_iso two_days) with
    | Some t => t
    | None => mk_table [] []
    end.

Definition bo_row : list (option pystr) :=
  Eval vm_compute in nth 1 (t_rows two_days_table) [].

(** The frames returned for the UTF-16 file of [three_columns]. *)
Definition three_columns_frames
  : list pystr * list event * list merged_row * table :=
  Eval vm_compute in
    returned_of (process_file parse_iso (utf_16_encode three_columns)).

(** A string made of whitespace only. *)
Definition all_space (s : pystr) : Prop := Forall (fun c => isspace c = true) s.

(** A file whose last column is empty in its only data line. *)
Definition empty_last_field : pystr :=
  tsv [["Name"; "EnNo"; "DateTime"; "Note"]%string;
       ["Asha"; "00000007"; "2024-01-15 08:00:00"; ""]%string].

(** * Properties *)

(** ** Equality tests and comparisons *)

Lemma pystr_eqb_eq (a b : pystr) : pystr_eqb a b = true <-> a = b.
Proof.
  unfold pystr_eqb. destruct (list_eq_dec N.eq_dec a b); split; intro H;
    try reflexivity; try assumption; try discriminate; contradiction.
Qed.

Lemma pystr_eqb_refl (a : pystr) : pystr_eqb a a = true.
Proof. apply pystr_eqb_eq. reflexivity. Qed.

Lemma pystr_eqb_neq (a b : pystr) : pystr_eqb a b = false <-> a <> b.
Proof.
  unfold pystr_eqb. destruct (list_eq_dec N.eq_dec a b); split; intro H;
    try reflexivity; try assumption; try discriminate; contradiction.
Qed.

Lemma opt_pystr_eqb_eq (a b : option pystr) : opt_pystr_eqb a b = true <-> a = b.
Proof.
  destruct a as [x|], b as [y|]; simpl; try rewrite pystr_eqb_eq;
    split; intro H; try discriminate; try reflexivity; congruence.
Qed.

Lemma triple_eqb_eq (a b : triple) : triple_eqb a b = true <-> a = b.
Proof.
  destruct a as [[n1 d1] t1], b as [[n2 d2] t2]. unfold triple_eqb.
  rewrite !andb_true_iff, opt_pystr_eqb_eq, !pystr_eqb_eq.
  split; [intros [[-> ->] ->]; reflexivity | intro H; inversion H; auto].
Qed.

Lemma pystr_compare_eq (a b : pystr) : pystr_compare a b = Eq <-> a = b.
Proof.
  revert b. induction a as [|x a IH]; intros [|y b]; simpl;
    try (split; [discriminate | discriminate]); try tauto.
  destruct (N.compare_spec x y) as [->|H|H].
  - rewrite IH. split; congruence.
  - split; [discriminate | intro E; inversion E; subst; lia].
  - split; [discriminate | intro E; inversion E; subst; lia].
Qed.

Lemma pystr_compare_antisym (a b : pystr) :
  pystr_compare b a = CompOpp (pystr_compare a b).
Proof.
  revert b. induction a as [|x a IH]; intros [|y b]; simpl; try reflexivity.
  rewrite (N.compare_antisym x y).
  destruct (x ?= y)%N; simpl; auto.
Qed.

Lemma pystr_compare_lt_trans (a b c : pystr) :
  pystr_compare a b = Lt -> pystr_compare b c = Lt -> pystr_compare a c = Lt.
Proof.
  revert b c. induction a as [|x a IH]; intros [|y b] [|z c]; simpl;
    try discriminate; try reflexivity.
  destruct (N.compare_spec x y) as [->|H|H]; try discriminate.
  - destruct (N.compare_spec y z) as [->|H'|H']; try discriminate.
    + apply IH.
    + reflexivity.
  - intros _. destruct (N.compare_spec y z) as [->|H'|H']; try discriminate.
    + intros _. destruct (N.compare_spec x z); try reflexivity; lia.
    + intros _. destruct (N.compare_spec x z); try reflexivity; lia.
Qed.

Lemma pair_compare_eq (a b : pystr * pystr) : pair_compare a b = Eq <-> a = b.
Proof.
  destruct a as [a1 a2], b as [b1 b2]. unfold pair_compare. simpl.
  destruct (pystr_compare a1 b1) eqn:E.
  - apply pystr_compare_eq in E. subst. rewrite pystr_compare_eq.
    split; congruence.
  - split; [discriminate|]. intro H. inversion H. subst.
    rewrite (proj2 (pystr_compare_eq b1 b1) eq_refl) in E. discriminate.
  - split; [discriminate|]. intro H. inversion H. subst.
    rewrite (proj2 (pystr_compare_eq b1 b1) eq_refl) in E. discriminate.
Qed.

Lemma pair_compare_antisym (a b : pystr * pystr) :
  pair_compare b a = CompOpp (pair_compare a b).
Proof.
  destruct a as [a1 a2], b as [b1 b2]. unfold pair_compare. simpl.
  rewrite (pystr_compare_antisym a1 b1).
  destruct (pystr_compare a1 b1); simpl; auto using pystr_compare_antisym.
Qed.

Lemma pair_compare_lt_trans (a b c : pystr * pystr) :
  pair_compare a b = Lt -> pair_compare b c = Lt -> pair_compare a c = Lt.
Proof.
  destruct a as [a1 a2], b as [b1 b2], c as [c1 c2]. unfold pair_compare. simpl.
  destruct (pystr_compare a1 b1) eqn:E1; try discriminate;
    destruct (pystr_compare b1 c1) eqn:E2; try discriminate; intros H1 H2.
  - apply pystr_compare_eq in E1, E2. subst.
    rewrite (proj2 (pystr_compare_eq c1 c1) eq_refl).
    eapply pystr_compare_lt_trans; eassumption.
  - apply pystr_compare_eq in E1. subst. rewrite E2. reflexivity.
  - apply pystr_compare_eq in E2. subst. rewrite E1. reflexivity.
  - rewrite (pystr_compare_lt_trans _ _ _ E1 E2). reflexivity.
Qed.

(** ** Sorting and de-duplication keep rows of the input *)

Lemma insert_perm {A : Type} (leb : A -> A -> bool) (x : A) (l : list A) :
  Permutation (insert leb x l) (x :: l).
Proof.
  induction l as [|y t IH]; simpl.
  - apply Permutation_refl.
  - destruct (leb x y).
    + apply Permutation_refl.
    + eapply Permutation_trans; [apply perm_skip, IH | apply perm_swap].
Qed.

Lemma sort_by_perm {A : Type} (leb : A -> A -> bool) (l : list A) :
  Permutation (sort_by leb l) l.
Proof.
  induction l as [|x t IH]; simpl.
  - constructor.
  - eapply Permutation_trans; [apply insert_perm | apply perm_skip, IH].
Qed.

Lemma drop_duplicates_from_In (seen : list triple) (l : list event) (e : event) :
  In e (drop_duplicates_from seen l) -> In e l.
Proof.
  revert seen. induction l as [|x t IH]; simpl; intros seen H.
  - exact H.
  - destruct (existsb (triple_eqb (key3 x)) seen).
    + right. eapply IH. eassumption.
    + destruct H as [H | H]; [left; exact H | right; eapply IH; eassumption].
Qed.

Lemma deburst_In (l : list event) (e : event) : In e (deburst l) -> In e l.
Proof.
  intro H. apply drop_duplicates_from_In in H.
  eapply Permutation_in; [apply sort_by_perm | exact H].
Qed.

(** ** What [parse_rows] lets through *)

Lemma bind_Ok {A B : Type} (r : result A) (k : A -> result B) (b : B) :
  bind r k = Ok b -> exists a, r = Ok a /\ k a = Ok b.
Proof.
  destruct r as [a | e]; simpl; intro H; [exists a; auto | discriminate].
Qed.

Lemma column_Ok (df : frame) (name : pystr) (i : nat) :
  column df name = Ok i -> position name (columns df) = Some i.
Proof.
  unfold column. destruct (position name (columns df)); intro H;
    [inversion H; reflexivity | discriminate].
Qed.

Lemma DataFrame_columns (data : list (list pystr)) (header : list pystr)
  (df : frame) :
  DataFrame data header = Ok df -> columns df = header.
Proof.
  unfold DataFrame. destruct data.
  - intro H. inversion H. reflexivity.
  - destruct (Nat.eqb _ _); intro H; [inversion H; reflexivity | discriminate].
Qed.

Lemma dropna_dated_In (cl : list cleaned) (e : event) :
  In e (dropna_dated cl) ->
  exists c, In c cl /\ c_dt c = Some (dt e) /\ cells e = c_cells c
            /\ Name e = c_Name c /\ EnNo e = c_EnNo c
            /\ DateTime_clean e = c_DateTime_clean c
            /\ Date e = strftime_Ymd (dt e) /\ time_s e = strftime_HMS (dt e).
Proof.
  unfold dropna_dated. rewrite in_flat_map. intros [c [Hc He]].
  exists c. unfold with_date in He. destruct (c_dt c) as [d|] eqn:E.
  - destruct He as [<- | []]. simpl. repeat split; auto.
  - destruct He.
Qed.

(** Every row [parse_rows] returns comes from a line that passed the filter
    of line 48 and whose cleaned timestamp the parser accepted. *)
Lemma parse_rows_In (parse : pystr -> option datetime)
  (first : pystr) (rest : list pystr) (evs : list event) (e : event) :
  parse_rows parse first rest = Ok evs -> In e evs ->
  exists iName iEnNo iDateTime,
    position (str "Name") (header_of first) = Some iName
    /\ position (str "EnNo") (header_of first) = Some iEnNo
    /\ position (str "DateTime") (header_of first) = Some iDateTime
    /\ Name e = cell iName (cells e)
    /\ EnNo e = cell iEnNo (cells e)
    /\ name_kept (Name e) = true
    /\ enno_kept (EnNo e) = true
    /\ DateTime_clean e = DateTime_clean_of (cell iDateTime (cells e))
    /\ parse (strip (before_dots (DateTime_clean e))) = Some (dt e)
    /\ Date e = strftime_Ymd (dt e)
    /\ time_s e = strftime_HMS (dt e).
Proof.
  unfold parse_rows. intros H Hin.
  apply bind_Ok in H. destruct H as [df [Hdf H]].
  apply bind_Ok in H. destruct H as [iN [HN H]].
  apply bind_Ok in H. destruct H as [iE [HE H]].
  apply bind_Ok in H. destruct H as [iD [HD H]].
  apply bind_Ok in H. destruct H as [u [_ H]].
  inversion H; subst evs; clear H.
  apply DataFrame_columns in Hdf.
  apply column_Ok in HN, HE, HD. rewrite Hdf in HN, HE, HD.
  apply dropna_dated_In in Hin.
  destruct Hin as [c [Hc [Hdt [Hcells [HName [HEnNo [Hclean [HDate Htime]]]]]]]].
  apply in_map_iff in Hc. destruct Hc as [r [<- Hr]].
  apply filter_In in Hr. destruct Hr as [_ Hr].
  apply andb_true_iff in Hr. destruct Hr as [Hr1 Hr2].
  simpl in *. exists iN, iE, iD.
  rewrite HName, HEnNo, Hclean, Hcells.
  repeat split; auto.
Qed.

Lemma process_text_events (parse : pystr -> option datetime) (text : pystr)
  (e : event) :
  In e (events_of (process_text parse text)) ->
  exists first rest evs,
    splitlines text = first :: rest
    /\ parse_rows parse first rest = Ok evs
    /\ In e (deburst evs).
Proof.
  unfold process_text. destruct (splitlines text) as [|first rest]; simpl.
  - intros [].
  - destruct (parse_rows parse first rest) as [evs | x] eqn:E; simpl.
    + destruct (reshape (aggregate_days (deburst evs))); simpl.
      * intro H. exists first, rest, evs. auto.
      * intros [].
    + intros [].
Qed.

(** C5.  A row whose trimmed [Name] is empty, or whose trimmed [EnNo] is
    the literal [00000000], is in no run a row of the returned event frame:
    every returned row carries, under the header's [Name] and [EnNo] labels,
    cells that pass both tests, whatever its other cells are. *)
Theorem sentinel_and_blank_rows_never_returned
  (parse : pystr -> option datetime) (text : pystr) (e : event) :
  In e (events_of (process_text parse text)) ->
  exists header iName iEnNo,
    file_header text = Some header
    /\ position (str "Name") header = Some iName
    /\ position (str "EnNo") header = Some iEnNo
    /\ (forall s, cell iName (cells e) = Some s -> strip s <> [])
    /\ (forall s, cell iEnNo (cells e) = Some s -> strip s <> str "00000000").
Proof.
  intro H. apply process_text_events in H.
  destruct H as [first [rest [evs [Hl [Hp Hin]]]]].
  apply deburst_In in Hin.
  destruct (parse_rows_In parse first rest evs e Hp Hin)
    as [iN [iE [iD [HN [HE [_ [EN [EE [KN [KE _]]]]]]]]]].
  exists (header_of first), iN, iE. unfold file_header. rewrite Hl.
  repeat split; auto.
  - intros s Hs. rewrite EN, Hs in KN. simpl in KN.
    apply negb_true_iff, pystr_eqb_neq in KN. exact KN.
  - intros s Hs. rewrite EE, Hs in KE. simpl in KE.
    apply negb_true_iff, pystr_eqb_neq in KE. exact KE.
Qed.

Lemma sentinel_and_blank_rows_never_returned_witness :
  In asha_first (events_of (process_text parse_iso two_days))
  /\ exists header iName iEnNo,
       file_header two_days = Some header
       /\ position (str "Name") header = Some iName
       /\ position (str "EnNo") header = Some iEnNo
       /\ (forall s, cell iName (cells asha_first) = Some s -> strip s <> [])
       /\ (forall s, cell iEnNo (cells asha_first) = Some s ->
                     strip s <> str "00000000").
Proof.
  assert (H : In asha_first (events_of (process_text parse_iso two_days)))
    by (vm_compute; left; reflexivity).
  split; [exact H |].
  exact (sentinel_and_blank_rows_never_returned parse_iso two_days asha_first H).
Defined.

(** The filter is at work on [two_days]: of its six lines, the one with the
    sentinel badge number and the one with the blank name are gone. *)
Example two_days_names :
  map Name (events_of (process_text parse_iso two_days))
  = [Some (str "Asha"); Some (str "Asha"); Some (str "Asha"); Some (str "Bo")].
Proof. vm_compute. reflexivity. Qed.

(** ** Runs that end in an exception *)

(** A frame of dated rows is never returned empty: the [.dt] accessor
    refuses the column when no cell of it holds a datetime. *)
Lemma parse_rows_nonempty (parse : pystr -> option datetime)
  (first : pystr) (rest : list pystr) (evs : list event) :
  parse_rows parse first rest = Ok evs -> evs <> [].
Proof.
  unfold parse_rows. intro H.
  repeat (apply bind_Ok in H; destruct H as [? [? H]]).
  inversion H; subst evs; clear H.
  match goal with
  | H : dt_accessor (infer_dtype (map c_dt ?cl)) = Ok _ |- _ =>
      revert H; generalize cl
  end.
  intros cl. unfold infer_dtype.
  destruct (existsb is_some (map c_dt cl)) eqn:E; [|discriminate].
  intros _. apply existsb_exists in E. destruct E as [o [Ho Hs]].
  apply in_map_iff in Ho. destruct Ho as [c [<- Hc]].
  intro Hnil.
  assert (Hin : In c cl -> with_date c = [] ).
  { intros _. unfold dropna_dated in Hnil.
    induction cl as [|c' cl IH]; [destruct Hc|].
    simpl in Hnil. apply app_eq_nil in Hnil. destruct Hnil as [Hhd Htl].
    destruct Hc as [-> | Hc]; [exact Hhd | apply IH; assumption]. }
  specialize (Hin Hc). unfold with_date in Hin.
  destruct (c_dt c); [discriminate | discriminate].
Qed.

(** Without a data line the run stops at line 54 with [AttributeError],
    whatever the header and the parser are, as soon as the three columns
    the code reads are there. *)
Lemma no_data_line_raises (parse : pystr -> option datetime) (first : pystr)
  (iName iEnNo iDateTime : nat) :
  position (str "Name") (header_of first) = Some iName ->
  position (str "EnNo") (header_of first) = Some iEnNo ->
  position (str "DateTime") (header_of first) = Some iDateTime ->
  parse_rows parse first [] = Raise AttributeError.
Proof.
  intros HN HE HD. unfold parse_rows, data_of, DataFrame, column. simpl.
  rewrite HN. simpl. rewrite HE. simpl. rewrite HD. reflexivity.
Qed.

(** C3.  On a file that consists of its header line only, [process_file]
    does not return: line 54 raises [AttributeError], so that neither an
    empty table nor the no-data message is produced.  The same holds for the
    whole page on the UTF-16 file with that text. *)
Theorem header_only_raises (parse : pystr -> option datetime) :
  process_text parse header_only = Raise AttributeError
  /\ process_file parse (utf_16_encode header_only) = Raise AttributeError
  /\ run_page parse (Some (utf_16_encode header_only)) = Raise AttributeError.
Proof. repeat split; vm_compute; reflexivity. Qed.

(** When the parser rejects the cleaned timestamp of every line that
    passed the filter, the [dt] column holds no datetime and line 54
    raises. *)
Lemma rejected_rows_raise (parse : pystr -> option datetime)
  (first : pystr) (rest : list pystr) (df : frame) (iName iEnNo iDateTime : nat) :
  DataFrame (data_of rest) (header_of first) = Ok df ->
  column df (str "Name") = Ok iName ->
  column df (str "EnNo") = Ok iEnNo ->
  column df (str "DateTime") = Ok iDateTime ->
  (forall r, In r (rows df) ->
             parse (strip (before_dots (DateTime_clean_of (cell iDateTime r))))
             = None) ->
  parse_rows parse first rest = Raise AttributeError.
Proof.
  intros Hdf HN HE HD Hrej. unfold parse_rows.
  rewrite Hdf. simpl. rewrite HN. simpl. rewrite HE. simpl. rewrite HD. simpl.
  assert (E : forall l, (forall r, In r l -> In r (rows df)) ->
              existsb is_some
                (map c_dt (map (clean_row parse iName iEnNo iDateTime) l))
              = false).
  { induction l as [|r l IH]; intro Hl; simpl.
    - reflexivity.
    - rewrite (Hrej r (Hl r (or_introl eq_refl))). simpl.
      apply IH. intros r' Hr'. apply Hl. right. exact Hr'. }
  unfold infer_dtype. rewrite E.
  - reflexivity.
  - intros r Hr. apply filter_In in Hr. tauto.
Qed.

(** C6, the run that fails.  A file whose only data line carries a
    timestamp the parser rejects makes [process_file] raise
    [AttributeError]: after [dropna] the [dt] column is an empty object
    column. *)
Theorem unparsable_only_raises (parse : pystr -> option datetime) :
  parse (str "garbage") = None ->
  process_text parse unparsable_only = Raise AttributeError.
Proof.
  intro H. unfold process_text.
  let v := eval vm_compute in (splitlines unparsable_only) in
  change (splitlines unparsable_only) with v.
  cbv beta iota.
  erewrite rejected_rows_raise; [reflexivity | reflexivity .. |].
  intros r Hr. vm_compute in Hr. destruct Hr as [<- | []].
  vm_compute. vm_compute in H. exact H.
Qed.

Lemma unparsable_only_raises_witness :
  parse_iso (str "garbage") = None
  /\ process_text parse_iso unparsable_only = Raise AttributeError.
Proof.
  split; [reflexivity | apply unparsable_only_raises; reflexivity].
Defined.

(** ** The header line *)

Lemma splitlines_from_pending (cur s : pystr) :
  cur <> [] -> splitlines_from cur s <> [].
Proof.
  revert cur. induction s as [|c t IH]; intros cur Hc; simpl.
  - destruct cur; [contradiction | discriminate].
  - destruct (is_linebreak c).
    + destruct (c =? CR)%N; [destruct t as [|c' t']|]; try discriminate.
      destruct (c' =? LF)%N; discriminate.
    + apply IH. discriminate.
Qed.

(** Only the empty text has no line. *)
Lemma splitlines_nil (text : pystr) : splitlines text = [] <-> text = [].
Proof.
  split.
  - unfold splitlines. destruct text as [|c t]; [reflexivity|]. simpl.
    destruct (is_linebreak c).
    + destruct (c =? CR)%N; [destruct t as [|c' t']|]; try discriminate.
      destruct (c' =? LF)%N; discriminate.
    + intro H. apply splitlines_from_pending in H; [destruct H | discriminate].
  - intros ->. reflexivity.
Qed.

(** With a blank first line the only column label is the empty string:
    either the frame cannot be built, or the [Name] column is missing. *)
Lemma blank_header_raises (parse : pystr -> option datetime)
  (first : pystr) (rest : list pystr) :
  strip first = [] ->
  parse_rows parse first rest = Raise ValueError
  \/ parse_rows parse first rest = Raise KeyError.
Proof.
  intro Hb. unfold parse_rows, header_of. rewrite Hb.
  change (split_char TAB []) with [@nil char].
  unfold DataFrame. destruct (data_of rest) as [|l data].
  - right. reflexivity.
  - destruct (Nat.eqb _ _).
    + right. reflexivity.
    + left. reflexivity.
Qed.

(** C7, as the code has it.  The header is the first line of the text,
    blank or not, split on tabs after trimming.  The empty text makes
    [process_file] return its triple of [None]s; a blank first line makes
    the run fail with the [ValueError] of the frame constructor or the
    [KeyError] of the [Name] lookup. *)
Theorem header_is_first_line (parse : pystr -> option datetime)
  (text first : pystr) (rest : list pystr) :
  splitlines text = first :: rest ->
  file_header text = Some (split_char TAB (strip first))
  /\ (strip first = [] ->
      process_text parse text = Raise ValueError
      \/ process_text parse text = Raise KeyError)
  /\ process_text parse [] = Ok None.
Proof.
  intro Hl. unfold file_header, process_text. rewrite Hl.
  split; [reflexivity | split; [| reflexivity]].
  intro Hb. destruct (blank_header_raises parse first rest Hb) as [E | E];
    rewrite E; [left | right]; reflexivity.
Qed.

Lemma header_is_first_line_witness :
  splitlines blank_first_line = [] :: splitlines two_punches
  /\ file_header blank_first_line = Some (split_char TAB (strip []))
  /\ (strip [] = [] ->
      process_text parse_iso blank_first_line = Raise ValueError
      \/ process_text parse_iso blank_first_line = Raise KeyError)
  /\ process_text parse_iso [] = Ok None.
Proof.
  assert (H : splitlines blank_first_line = [] :: splitlines two_punches)
    by (vm_compute; reflexivity).
  split; [exact H |].
  exact (header_is_first_line parse_iso blank_first_line [] _ H).
Defined.

(** On [blank_first_line] the header the code uses is not the first
    non-empty line, and the run ends in a [ValueError]; on the empty text
    nothing is raised at all. *)
Lemma header_not_first_nonempty_line :
  file_header blank_first_line <> spec_header blank_first_line
  /\ file_header blank_first_line = Some [[]]
  /\ process_text parse_iso blank_first_line = Raise ValueError
  /\ process_text parse_iso [] = Ok None.
Proof.
  repeat split; try (vm_compute; reflexivity).
  vm_compute. discriminate.
Qed.

(** ** Lines of another length than the header *)

Lemma nth_repeat_None (n i : nat) :
  nth i (repeat (@None pystr) n) None = None.
Proof.
  revert i. induction n as [|n IH]; intros [|i]; simpl; auto.
Qed.

Lemma cell_pad (k : nat) (l : list pystr) (i : nat) :
  cell i (pad k l) = nth_error l i.
Proof.
  unfold cell, pad. generalize (k - List.length l)%nat. intro n. revert i.
  induction l as [|x l IH]; intros i.
  - simpl. rewrite nth_repeat_None. destruct i; reflexivity.
  - destruct i; simpl; [reflexivity | apply IH].
Qed.

Lemma width_ge (data : list (list pystr)) (l : list pystr) :
  In l data -> (List.length l <= width data)%nat.
Proof.
  induction data as [|x data IH]; simpl; [intros [] | intros [-> | H]].
  - apply Nat.le_max_l.
  - eapply Nat.le_trans; [apply IH, H | apply Nat.le_max_r].
Qed.

(** C8, as the code has it.  When there are data lines, the frame is built
    only if the longest of them has exactly as many fields as the header:
    otherwise the constructor raises [ValueError].  When it is built, no
    line is longer than the header, and a shorter line gives a row whose
    missing fields are absent: under the [i]-th label stands the [i]-th
    field of the line when it has one, and the missing value otherwise. *)
Theorem line_arity (parse : pystr -> option datetime)
  (first : pystr) (rest : list pystr) :
  data_of rest <> [] ->
  (width (data_of rest) <> List.length (header_of first) ->
   parse_rows parse first rest = Raise ValueError)
  /\ (width (data_of rest) = List.length (header_of first) ->
      DataFrame (data_of rest) (header_of first)
      = Ok (mk_frame (header_of first)
                     (map (pad (List.length (header_of first))) (data_of rest)))
      /\ forall l, In l (data_of rest) ->
           (List.length l <= List.length (header_of first))%nat
           /\ forall i, cell i (pad (List.length (header_of first)) l)
                        = nth_error l i).
Proof.
  intro Hne. split.
  - intro Hw. unfold parse_rows, DataFrame.
    destruct (data_of rest) as [|l data]; [contradiction|].
    apply Nat.eqb_neq in Hw. rewrite Hw. reflexivity.
  - intro Hw. split.
    + unfold DataFrame. destruct (data_of rest) as [|l data]; [contradiction|].
      rewrite Hw, Nat.eqb_refl. reflexivity.
    + intros l Hl. split.
      * rewrite <- Hw. apply width_ge, Hl.
      * intro i. apply cell_pad.
Qed.

Lemma line_arity_witness :
  data_of (tl (splitlines short_and_full)) <> []
  /\ (width (data_of (tl (splitlines short_and_full)))
      <> List.length (header_of (hd [] (splitlines short_and_full))) ->
      parse_rows parse_iso (hd [] (splitlines short_and_full))
                 (tl (splitlines short_and_full)) = Raise ValueError)
  /\ (width (data_of (tl (splitlines short_and_full)))
      = List.length (header_of (hd [] (splitlines short_and_full))) ->
      DataFrame (data_of (tl (splitlines short_and_full)))
                (header_of (hd [] (splitlines short_and_full)))
      = Ok (mk_frame (header_of (hd [] (splitlines short_and_full)))
              (map (pad (List.length
                           (header_of (hd [] (splitlines short_and_full)))))
                   (data_of (tl (splitlines short_and_full)))))
      /\ forall l, In l (data_of (tl (splitlines short_and_full))) ->
           (List.length l
            <= List.length (header_of (hd [] (splitlines short_and_full))))%nat
           /\ forall i,
               cell i (pad (List.length
                              (header_of (hd [] (splitlines short_and_full))))
                           l)
               = nth_error l i).
Proof.
  assert (H : data_of (tl (splitlines short_and_full)) <> [])
    by (vm_compute; discriminate).
  split; [exact H |].
  exact (line_arity parse_iso _ _ H).
Defined.

(** A line with one field more than the header, and a line with fewer
    fields when no line is as long as the header, both end the run with
    [ValueError]; a short line next to a full one gives a padded row, which
    here is dropped later for lack of a timestamp. *)
Lemma arity_mismatch_raises :
  process_text parse_iso one_field_more = Raise ValueError
  /\ process_text parse_iso one_field_less = Raise ValueError
  /\ List.length (events_of (process_text parse_iso short_and_full)) = 1%nat.
Proof. repeat split; vm_compute; reflexivity. Qed.

(** ** De-bursting *)

Section SortedBy.
Context {A : Type}.
Variable leb : A -> A -> bool.
Hypothesis leb_total : forall x y, leb x y = false -> leb y x = true.
Hypothesis leb_trans :
  forall x y z, leb x y = true -> leb y z = true -> leb x z = true.

Let le (x y : A) : Prop := leb x y = true.

Lemma insert_sorted (x : A) (l : list A) :
  StronglySorted le l -> StronglySorted le (insert leb x l).
Proof.
  induction 1 as [|y t Ht IH Hy]; simpl.
  - constructor; constructor.
  - destruct (leb x y) eqn:E.
    + constructor; [constructor; assumption |].
      constructor; [exact E |].
      rewrite Forall_forall in *. intros z Hz.
      eapply leb_trans; [exact E | apply Hy, Hz].
    + constructor; [exact IH |].
      rewrite Forall_forall in *. intros z Hz.
      apply (Permutation_in _ (insert_perm leb x t)) in Hz.
      destruct Hz as [<- | Hz]; [apply leb_total, E | apply Hy, Hz].
Qed.

Lemma sort_by_sorted (l : list A) : StronglySorted le (sort_by leb l).
Proof.
  induction l as [|x t IH]; simpl; [constructor | apply insert_sorted, IH].
Qed.

End SortedBy.

(** [sort_values('dt')] returns the rows in ascending order of [dt]. *)
Lemma sort_values_sorted (l : list event) :
  StronglySorted (fun a b => value (dt a) <= value (dt b)) (sort_values l).
Proof.
  assert (H := sort_by_sorted dt_leb
                 (fun x y E => proj2 (Z.leb_le _ _)
                    (Z.lt_le_incl _ _ (proj1 (Z.leb_gt _ _) E)))
                 (fun x y z E1 E2 => proj2 (Z.leb_le _ _)
                    (Z.le_trans _ _ _ (proj1 (Z.leb_le _ _) E1)
                                      (proj1 (Z.leb_le _ _) E2))) l).
  unfold sort_values.
  induction H as [|a t Ht IH Ha]; constructor; [exact IH |].
  rewrite Forall_forall in *. intros b Hb. apply Z.leb_le. apply Ha, Hb.
Qed.

Lemma seen_In (k : triple) (seen : list triple) :
  existsb (triple_eqb k) seen = true <-> In k seen.
Proof.
  rewrite existsb_exists. split.
  - intros [x [Hx E]]. apply triple_eqb_eq in E. subst. exact Hx.
  - intro H. exists k. split; [exact H | apply triple_eqb_eq; reflexivity].
Qed.

Lemma seen_not_In (k : triple) (seen : list triple) :
  existsb (triple_eqb k) seen = false <-> ~ In k seen.
Proof.
  rewrite <- seen_In. destruct (existsb (triple_eqb k) seen); split;
    intro H; try discriminate; try reflexivity; try (intro; discriminate).
  exfalso. apply H. reflexivity.
Qed.

(** The keys that survive are those of the list that were not seen. *)
Lemma drop_duplicates_from_keys (seen : list triple) (l : list event)
  (k : triple) :
  In k (map key3 (drop_duplicates_from seen l))
  <-> In k (map key3 l) /\ ~ In k seen.
Proof.
  revert seen. induction l as [|e t IH]; intros seen; simpl.
  - tauto.
  - destruct (existsb (triple_eqb (key3 e)) seen) eqn:E.
    + apply seen_In in E. rewrite IH. split.
      * intros [H1 H2]. split; [right; exact H1 | exact H2].
      * intros [[H1 | H1] H2]; [subst; contradiction | split; assumption].
    + apply seen_not_In in E. simpl. rewrite IH. simpl. split.
      * intros [<- | [H1 H2]]; [split; [left; reflexivity | exact E] |].
        split; [right; exact H1 | intro; apply H2; right; assumption].
      * intros [[H1 | H1] H2]; [left; exact H1 |].
        assert (D : {key3 e = k} + {key3 e <> k}).
        { destruct (triple_eqb (key3 e) k) eqn:T;
            [left; apply triple_eqb_eq, T |
             right; intro X; apply triple_eqb_eq in X; congruence]. }
        destruct D as [D | D]; [left; exact D | right].
        split; [exact H1 | intros [X | X]; [contradiction | contradiction]].
Qed.

(** No two surviving rows share a key. *)
Lemma drop_duplicates_from_NoDup (seen : list triple) (l : list event) :
  NoDup (map key3 (drop_duplicates_from seen l)).
Proof.
  revert seen. induction l as [|e t IH]; intros seen; simpl.
  - constructor.
  - destruct (existsb (triple_eqb (key3 e)) seen) eqn:E; [apply IH |].
    simpl. constructor; [| apply IH].
    rewrite drop_duplicates_from_keys. intros [_ H]. apply H. left. reflexivity.
Qed.

(** A surviving row is the first of its key in the list it was taken from. *)
Lemma drop_duplicates_from_first (seen : list triple) (l : list event)
  (e : event) :
  In e (drop_duplicates_from seen l) ->
  exists s1 s2, l = s1 ++ e :: s2 /\ ~ In (key3 e) (map key3 s1).
Proof.
  revert seen. induction l as [|x t IH]; intros seen; simpl.
  - intros [].
  - destruct (existsb (triple_eqb (key3 x)) seen) eqn:E.
    + intro H.
      assert (Hk : In (key3 e) (map key3 (drop_duplicates_from seen t)))
        by (apply in_map; exact H).
      apply drop_duplicates_from_keys in Hk. destruct Hk as [_ Hk].
      destruct (IH _ H) as [s1 [s2 [-> Hs]]].
      exists (x :: s1), s2. split; [reflexivity |].
      simpl. intros [X | X]; [| contradiction].
      apply seen_In in E. rewrite X in E. contradiction.
    + intros [<- | H].
      * exists [], t. split; [reflexivity | intros []].
      * assert (Hk : In (key3 e)
                        (map key3 (drop_duplicates_from (key3 x :: seen) t)))
          by (apply in_map; exact H).
        apply drop_duplicates_from_keys in Hk. destruct Hk as [_ Hk].
        destruct (IH _ H) as [s1 [s2 [-> Hs]]].
        exists (x :: s1), s2. split; [reflexivity |].
        simpl. intros [X | X]; [| contradiction].
        apply Hk. left. exact X.
Qed.

Lemma deburst_keys (l : list event) (k : triple) :
  In k (map key3 (deburst l)) <-> In k (map key3 l).
Proof.
  unfold deburst, drop_duplicates. rewrite drop_duplicates_from_keys.
  split.
  - intros [H _]. eapply Permutation_in; [| exact H].
    apply Permutation_map, sort_by_perm.
  - intro H. split; [| intros []].
    eapply Permutation_in; [| exact H].
    apply Permutation_sym, Permutation_map, sort_by_perm.
Qed.

(** The number of surviving rows depends on the set of keys only. *)
Lemma deburst_length (l l' : list event) :
  (forall k, In k (map key3 l) <-> In k (map key3 l')) ->
  List.length (deburst l) = List.length (deburst l').
Proof.
  intro H.
  assert (L : forall a b : list event,
             (forall k, In k (map key3 a) -> In k (map key3 b)) ->
             (List.length (deburst a) <= List.length (deburst b))%nat).
  { intros a b Hab.
    rewrite <- (length_map key3 (deburst a)), <- (length_map key3 (deburst b)).
    apply NoDup_incl_length.
    - apply drop_duplicates_from_NoDup.
    - intros k Hk. apply deburst_keys. apply Hab. apply deburst_keys. exact Hk. }
  apply Nat.le_antisymm; apply L; intros k Hk; apply H; exact Hk.
Qed.

(** C4.  Rows that repeat the name, date and whole second of a row already
    in the input do not change the number of surviving rows, wherever they
    stand in the file.  Among the rows of one such triple exactly one
    survives: the first of them in the frame sorted by [dt], which none of
    the others precedes in time. *)
Theorem deburst_idempotent (l dups l' : list event) (e : event) :
  In e l ->
  (forall d, In d dups -> key3 d = key3 e) ->
  Permutation l' (dups ++ l) ->
  List.length (deburst l') = List.length (deburst l)
  /\ NoDup (map key3 (deburst l'))
  /\ (forall x, In x l' -> In (key3 x) (map key3 (deburst l')))
  /\ (forall k, In k (deburst l') ->
        exists s1 s2,
          sort_values l' = s1 ++ k :: s2
          /\ ~ In (key3 k) (map key3 s1)
          /\ forall x, In x l' -> key3 x = key3 k ->
                       value (dt k) <= value (dt x)).
Proof.
  intros He Hd Hp. repeat split.
  - apply deburst_length. intro k. split; intro Hk.
    + apply (Permutation_in _ (Permutation_map key3 Hp)) in Hk.
      rewrite map_app, in_app_iff in Hk. destruct Hk as [Hk | Hk]; [| exact Hk].
      apply in_map_iff in Hk. destruct Hk as [d [<- Hin]].
      rewrite (Hd d Hin). apply in_map. exact He.
    + apply (Permutation_in _ (Permutation_sym (Permutation_map key3 Hp))).
      rewrite map_app, in_app_iff. right. exact Hk.
  - apply drop_duplicates_from_NoDup.
  - intros x Hx. apply deburst_keys. apply in_map. exact Hx.
  - intros k Hk. unfold deburst, drop_duplicates in Hk.
    destruct (drop_duplicates_from_first _ _ _ Hk) as [s1 [s2 [Hs Hn]]].
    exists s1, s2. repeat split; [exact Hs | exact Hn |].
    intros x Hx Hkey.
    assert (Hx' : In x (sort_values l'))
      by (eapply Permutation_in; [apply Permutation_sym, sort_by_perm | exact Hx]).
    assert (Hsorted := sort_values_sorted l').
    rewrite Hs in Hx', Hsorted.
    apply in_app_iff in Hx'. destruct Hx' as [Hx' | [<- | Hx']].
    + exfalso. apply Hn. rewrite <- Hkey. apply in_map. exact Hx'.
    + apply Z.le_refl.
    + clear - Hsorted Hx'. induction s1 as [|a s1 IH]; simpl in Hsorted.
      * inversion Hsorted as [|? ? _ Hall]; subst.
        rewrite Forall_forall in Hall. apply Hall, Hx'.
      * inversion Hsorted; subst. apply IH. assumption.
Qed.

Lemma deburst_idempotent_witness :
  In asha_in (dated_rows two_punches)
  /\ (forall d, In d (dated_rows bounces) -> key3 d = key3 asha_in)
  /\ Permutation (dated_rows bursty)
                 (dated_rows bounces ++ dated_rows two_punches)
  /\ List.length (deburst (dated_rows bursty))
     = List.length (deburst (dated_rows two_punches))
  /\ NoDup (map key3 (deburst (dated_rows bursty)))
  /\ (forall x, In x (dated_rows bursty) ->
                In (key3 x) (map key3 (deburst (dated_rows bursty))))
  /\ (forall k, In k (deburst (dated_rows bursty)) ->
        exists s1 s2,
          sort_values (dated_rows bursty) = s1 ++ k :: s2
          /\ ~ In (key3 k) (map key3 s1)
          /\ forall x, In x (dated_rows bursty) -> key3 x = key3 k ->
                       value (dt k) <= value (dt x)).
Proof.
  assert (H1 : In asha_in (dated_rows two_punches))
    by (vm_compute; left; reflexivity).
  assert (H2 : forall d, In d (dated_rows bounces) -> key3 d = key3 asha_in)
    by (intros d Hd; vm_compute in Hd;
        destruct Hd as [<- | [<- | []]]; vm_compute; reflexivity).
  assert (H3 : Permutation (dated_rows bursty)
                           (dated_rows bounces ++ dated_rows two_punches))
    by (vm_compute; apply Permutation_refl).
  split; [exact H1 |]. split; [exact H2 |]. split; [exact H3 |].
  exact (deburst_idempotent _ _ _ _ H1 H2 H3).
Defined.

(** On [bursty] the three punches of 08:00:00 leave one row, the first of
    them in the file, and the frame has the two rows of [two_punches]. *)
Example bursty_deburst :
  map (fun e => (cell 0 (cells e), EnNo e, time_s e))
      (deburst (dated_rows bursty))
  = [(Some (str "3"), Some (str "00000008"), str "08:00:00");
     (Some (str "2"), Some (str "00000007"), str "17:30:00")]
  /\ List.length (deburst (dated_rows two_punches)) = 2%nat.
Proof. split; vm_compute; reflexivity. Qed.

(** ** Aggregation per name and day *)

Lemma pair_compare_refl (k : gkey) : pair_compare k k = Eq.
Proof. apply pair_compare_eq. reflexivity. Qed.

Lemma insert_key_In (k k' : gkey) (l : list gkey) :
  In k (insert_key k' l) <-> k = k' \/ In k l.
Proof.
  induction l as [|y t IH]; simpl.
  - intuition.
  - destruct (pair_compare k' y) eqn:E; simpl.
    + apply pair_compare_eq in E. subst. intuition.
    + intuition.
    + rewrite IH. intuition.
Qed.

Lemma group_keys_In (l : list event) (k : gkey) :
  In k (group_keys l)
  <-> exists e, In e l /\ Name e = Some (fst k) /\ Date e = snd k.
Proof.
  induction l as [|x t IH]; simpl.
  - split; [intros [] | intros [e [[] _]]].
  - destruct (Name x) as [n|] eqn:En.
    + rewrite insert_key_In, IH. split.
      * intros [-> | [e [He Hk]]].
        -- exists x. simpl. auto.
        -- exists e. auto.
      * intros [e [[<- | He] [H1 H2]]].
        -- left. destruct k as [k1 k2]. simpl in *.
           rewrite En in H1. inversion H1. subst. reflexivity.
        -- right. exists e. auto.
    + rewrite IH. split.
      * intros [e [He Hk]]. exists e. auto.
      * intros [e [[<- | He] [H1 H2]]].
        -- rewrite En in H1. discriminate.
        -- exists e. auto.
Qed.

Lemma in_group_iff (k : gkey) (e : event) :
  in_group k e = true <-> Name e = Some (fst k) /\ Date e = snd k.
Proof.
  unfold in_group. rewrite andb_true_iff, opt_pystr_eqb_eq, pystr_eqb_eq.
  tauto.
Qed.

Lemma group_In (l : list event) (k : gkey) (e : event) :
  In e (group l k) <-> In e l /\ Name e = Some (fst k) /\ Date e = snd k.
Proof. unfold group. rewrite filter_In, in_group_iff. tauto. Qed.

(** [min] and [max] of a column return one of its values, below, resp.
    above, all of them. *)
Lemma min_dt_spec (d : datetime) (l : list datetime) :
  In (min_dt d l) (d :: l)
  /\ forall x, In x (d :: l) -> value (min_dt d l) <= value x.
Proof.
  unfold min_dt. revert d. induction l as [|y t IH]; intros d; simpl.
  - split; [left; reflexivity | intros x [<- | []]; apply Z.le_refl].
  - destruct (IH (earlier d y)) as [H1 H2]. unfold earlier in *.
    destruct (value y <? value d) eqn:E.
    + apply Z.ltb_lt in E. split.
      * destruct H1 as [H1 | H1]; [right; left; exact H1 | right; right; exact H1].
      * intros x [<- | [<- | Hx]].
        -- eapply Z.le_trans; [apply H2; left; reflexivity | lia].
        -- apply H2. left. reflexivity.
        -- apply H2. right. exact Hx.
    + apply Z.ltb_ge in E. split.
      * destruct H1 as [H1 | H1]; [left; exact H1 | right; right; exact H1].
      * intros x [<- | [<- | Hx]].
        -- apply H2. left. reflexivity.
        -- eapply Z.le_trans; [apply H2; left; reflexivity | lia].
        -- apply H2. right. exact Hx.
Qed.

Lemma max_dt_spec (d : datetime) (l : list datetime) :
  In (max_dt d l) (d :: l)
  /\ forall x, In x (d :: l) -> value x <= value (max_dt d l).
Proof.
  unfold max_dt. revert d. induction l as [|y t IH]; intros d; simpl.
  - split; [left; reflexivity | intros x [<- | []]; apply Z.le_refl].
  - destruct (IH (later d y)) as [H1 H2]. unfold later in *.
    destruct (value d <? value y) eqn:E.
    + apply Z.ltb_lt in E. split.
      * destruct H1 as [H1 | H1]; [right; left; exact H1 | right; right; exact H1].
      * intros x [<- | [<- | Hx]].
        -- eapply Z.le_trans; [| apply H2; left; reflexivity]. lia.
        -- apply H2. left. reflexivity.
        -- apply H2. right. exact Hx.
    + apply Z.ltb_ge in E. split.
      * destruct H1 as [H1 | H1]; [left; exact H1 | right; right; exact H1].
      * intros x [<- | [<- | Hx]].
        -- apply H2. left. reflexivity.
        -- eapply Z.le_trans; [| apply H2; left; reflexivity]. lia.
        -- apply H2. right. exact Hx.
Qed.

(** The aggregated frame has, for each key, the aggregate of its group. *)
Lemma lookup_aggregate (f : datetime -> list datetime -> datetime)
  (l : list event) (k : gkey) (d : datetime) (t : list datetime) :
  In k (group_keys l) -> map dt (group l k) = d :: t ->
  lookup k (aggregate f l) = Some (f d t).
Proof.
  unfold aggregate. generalize (group_keys l) as keys.
  induction keys as [|k' keys IH]; simpl; intros Hk Hg.
  - destruct Hk.
  - destruct (map dt (group l k')) as [|d' t'] eqn:G; simpl.
    + destruct Hk as [-> | Hk]; [rewrite Hg in G; discriminate | auto].
    + destruct (pair_compare k k') eqn:E.
      * apply pair_compare_eq in E. subst k'. rewrite Hg in G.
        inversion G. reflexivity.
      * destruct Hk as [-> | Hk]; [rewrite pair_compare_refl in E; discriminate | auto].
      * destruct Hk as [-> | Hk]; [rewrite pair_compare_refl in E; discriminate | auto].
Qed.

Lemma aggregate_keys (f : datetime -> list datetime -> datetime)
  (l : list event) (k : gkey) :
  In k (map fst (aggregate f l)) <-> In k (group_keys l).
Proof.
  unfold aggregate.
  assert (G : forall k', In k' (group_keys l) -> map dt (group l k') <> []).
  { intros k' Hk'. apply group_keys_In in Hk'. destruct Hk' as [e He].
    apply group_In in He. intro Hnil. apply map_eq_nil in Hnil.
    rewrite Hnil in He. destruct He. }
  revert G. generalize (group_keys l) as keys.
  induction keys as [|k' keys IH]; simpl; intro G.
  - tauto.
  - rewrite map_app, in_app_iff, IH by (intros; apply G; right; assumption).
    destruct (map dt (group l k')) as [|d t] eqn:E.
    + exfalso. apply (G k'); [left; reflexivity | exact E].
    + simpl. intuition.
Qed.

Lemma fold_insert_key_In (keys : list gkey) (k : gkey) :
  In k (fold_right insert_key [] keys) <-> In k keys.
Proof.
  induction keys as [|x t IH]; simpl; [tauto |].
  rewrite insert_key_In, IH. intuition.
Qed.

(** The row of [merged] for a key that occurs in the frame. *)
Lemma aggregate_days_row (l : list event) (k : gkey) (d : datetime)
  (t : list datetime) :
  In k (group_keys l) -> map dt (group l k) = d :: t ->
  In (merge_row (groupby_min l) (groupby_max l) k) (aggregate_days l)
  /\ merge_row (groupby_min l) (groupby_max l) k
     = mk_merged_row (fst k) (snd k) (Some (min_dt d t)) (Some (max_dt d t))
         (Some (strftime_HM (min_dt d t))) (Some (strftime_HM (max_dt d t)))
         (duration_of (Some (min_dt d t)) (Some (max_dt d t)))
         (duration_str_of (duration_of (Some (min_dt d t)) (Some (max_dt d t)))).
Proof.
  intros Hk Hg. split.
  - unfold aggregate_days, merge_outer. apply in_map.
    apply fold_insert_key_In. rewrite in_app_iff. left.
    apply aggregate_keys. exact Hk.
  - unfold merge_row, groupby_min, groupby_max.
    rewrite (lookup_aggregate min_dt l k d t Hk Hg).
    rewrite (lookup_aggregate max_dt l k d t Hk Hg). reflexivity.
Qed.

(** Aggregation reads the name, the date and the timestamp of a row, and
    nothing else. *)
Lemma aggregate_days_ext (l l' : list event) :
  map (fun e => (Name e, Date e, dt e)) l'
  = map (fun e => (Name e, Date e, dt e)) l ->
  aggregate_days l' = aggregate_days l.
Proof.
  intro H.
  assert (K : group_keys l' = group_keys l).
  { revert l' H. induction l as [|x t IH]; intros [|x' t'] H;
      try discriminate; [reflexivity |].
    simpl in H. inversion H as [[H1 H2 H3 H4]]. simpl.
    rewrite H1, H2, (IH t' H4). reflexivity. }
  assert (G : forall k, map dt (group l' k) = map dt (group l k)).
  { intro k. clear K. revert l' H. induction l as [|x t IH]; intros [|x' t'] H;
      try discriminate; [reflexivity |].
    simpl in H. inversion H as [[H1 H2 H3 H4]]. simpl.
    unfold in_group. rewrite H1, H2.
    destruct (opt_pystr_eqb (Name x) (Some (fst k)) && pystr_eqb (Date x) (snd k));
      simpl; rewrite ?H3, (IH t' H4); reflexivity. }
  assert (F : forall f, aggregate f l' = aggregate f l).
  { intro f. unfold aggregate. rewrite K. apply flat_map_ext.
    intro k. rewrite G. reflexivity. }
  unfold aggregate_days, groupby_min, groupby_max. rewrite !F. reflexivity.
Qed.

(** C1.  For every name and date under which the surviving rows hold an
    event, [merged] has a row whose [IN] is the least and whose [OUT] is the
    greatest timestamp of that group, both formatted as hours and minutes,
    and whose [Hours] is their difference.  Rows that agree on name, date
    and timestamp give the same [merged] whatever their other cells
    ([In/Out], [Mode], [EnNo]) hold.  For one employee with punches at
    08:00:00 and 17:30:00 on one day the row reads 08:00, 17:30, 09:30. *)
Theorem in_out_are_min_max (df : list event) (e0 : event) (n : pystr) :
  In e0 df -> Name e0 = Some n ->
  (exists r i o,
     In r (aggregate_days df)
     /\ m_Name r = n /\ m_Date r = Date e0
     /\ IN r = Some i /\ OUT r = Some o
     /\ In i (map dt (group df (n, Date e0)))
     /\ In o (map dt (group df (n, Date e0)))
     /\ (forall e, In e df -> Name e = Some n -> Date e = Date e0 ->
                   value i <= value (dt e) <= value o)
     /\ IN_str r = Some (strftime_HM i)
     /\ OUT_str r = Some (strftime_HM o)
     /\ duration_str r = format_duration (value o - value i))
  /\ (forall df',
        map (fun e => (Name e, Date e, dt e)) df'
        = map (fun e => (Name e, Date e, dt e)) df ->
        aggregate_days df' = aggregate_days df)
  /\ map (fun r => (m_Name r, m_Date r, IN_str r, OUT_str r, duration_str r))
         (aggregate_days (deburst (dated_rows two_punches)))
     = [(str "Asha", str "2024-01-15",
         Some (str "08:00"), Some (str "17:30"), str "09:30")].
Proof.
  intros Hin Hn. split; [| split; [apply aggregate_days_ext | vm_compute; reflexivity]].
  set (k := (n, Date e0)).
  assert (Hk : In k (group_keys df)).
  { apply group_keys_In. exists e0. auto. }
  assert (Hg : In e0 (group df k)) by (apply group_In; auto).
  destruct (map dt (group df k)) as [|d t] eqn:G.
  { apply map_eq_nil in G. rewrite G in Hg. destruct Hg. }
  destruct (aggregate_days_row df k d t Hk G) as [Hrow Heq].
  destruct (min_dt_spec d t) as [Hmin1 Hmin2].
  destruct (max_dt_spec d t) as [Hmax1 Hmax2].
  assert (Hle : value (min_dt d t) <= value (max_dt d t)).
  { eapply Z.le_trans; [apply Hmin2 | apply Hmax2]; left; reflexivity. }
  rewrite Heq in Hrow. clear Heq.
  assert (Hall : forall e, In e df -> Name e = Some n -> Date e = Date e0 ->
                           In (dt e) (d :: t)).
  { intros e He HN HD. rewrite <- G. apply in_map, group_In. auto. }
  eexists _, (min_dt d t), (max_dt d t).
  split; [exact Hrow |].
  cbn [m_Name m_Date IN OUT IN_str OUT_str duration_str].
  unfold duration_of. apply Z.leb_le in Hle. rewrite Hle. apply Z.leb_le in Hle.
  cbn [duration_str_of]. subst k. cbn [fst snd].
  repeat split; auto.
Qed.

Lemma in_out_are_min_max_witness :
  In asha_in (deburst (dated_rows two_punches))
  /\ Name asha_in = Some (str "Asha")
  /\ exists r i o,
       In r (aggregate_days (deburst (dated_rows two_punches)))
       /\ m_Name r = str "Asha" /\ m_Date r = Date asha_in
       /\ IN r = Some i /\ OUT r = Some o
       /\ In i (map dt (group (deburst (dated_rows two_punches))
                              (str "Asha", Date asha_in)))
       /\ In o (map dt (group (deburst (dated_rows two_punches))
                              (str "Asha", Date asha_in)))
       /\ (forall e, In e (deburst (dated_rows two_punches)) ->
                     Name e = Some (str "Asha") -> Date e = Date asha_in ->
                     value i <= value (dt e) <= value o)
       /\ IN_str r = Some (strftime_HM i)
       /\ OUT_str r = Some (strftime_HM o)
       /\ duration_str r = format_duration (value o - value i).
Proof.
  assert (H1 : In asha_in (deburst (dated_rows two_punches)))
    by (vm_compute; left; reflexivity).
  assert (H2 : Name asha_in = Some (str "Asha")) by reflexivity.
  split; [exact H1 |]. split; [exact H2 |].
  exact (proj1 (in_out_are_min_max _ _ _ H1 H2)).
Defined.

(** ** One row per name *)

Lemma insert_str_In (s x : pystr) (l : list pystr) :
  In x (insert_str s l) <-> x = s \/ In x l.
Proof.
  induction l as [|y t IH]; simpl.
  - intuition.
  - destruct (pystr_compare s y) eqn:E; simpl.
    + apply pystr_compare_eq in E. subst. intuition.
    + intuition.
    + rewrite IH. intuition.
Qed.

Lemma level_values_In (l : list pystr) (x : pystr) :
  In x (level_values l) <-> In x l.
Proof.
  unfold level_values. induction l as [|y t IH]; simpl; [tauto |].
  rewrite insert_str_In, IH. intuition.
Qed.

Lemma insert_str_sorted (s : pystr) (l : list pystr) :
  StronglySorted str_lt l -> StronglySorted str_lt (insert_str s l).
Proof.
  induction 1 as [|y t Ht IH Hy]; simpl.
  - constructor; constructor.
  - destruct (pystr_compare s y) eqn:E.
    + constructor; assumption.
    + constructor; [constructor; assumption |].
      constructor; [exact E |].
      rewrite Forall_forall in *. intros z Hz.
      eapply pystr_compare_lt_trans; [exact E | apply Hy, Hz].
    + constructor; [exact IH |].
      rewrite Forall_forall in *. intros z Hz.
      apply insert_str_In in Hz. destruct Hz as [-> | Hz]; [| apply Hy, Hz].
      unfold str_lt. rewrite pystr_compare_antisym, E. reflexivity.
Qed.

(** The values of an index level come out ascending, hence distinct. *)
Lemma level_values_sorted (l : list pystr) :
  StronglySorted str_lt (level_values l).
Proof.
  unfold level_values. induction l as [|x t IH]; simpl;
    [constructor | apply insert_str_sorted, IH].
Qed.

Lemma str_lt_sorted_NoDup (l : list pystr) :
  StronglySorted str_lt l -> NoDup l.
Proof.
  induction 1 as [|y t Ht IH Hy]; constructor; [| exact IH].
  intro Hin. rewrite Forall_forall in Hy. specialize (Hy y Hin).
  unfold str_lt in Hy.
  rewrite (proj2 (pystr_compare_eq y y) eq_refl) in Hy. discriminate.
Qed.

Lemma aggregate_days_keys (l : list event) (r : merged_row) :
  In r (aggregate_days l) -> In (m_Name r, m_Date r) (group_keys l).
Proof.
  unfold aggregate_days, merge_outer. rewrite in_map_iff.
  intros [k [<- Hk]]. apply (proj1 (fold_insert_key_In _ _)) in Hk.
  rewrite in_app_iff in Hk. unfold groupby_min, groupby_max in Hk.
  rewrite !aggregate_keys in Hk. destruct k as [k1 k2]. simpl. tauto.
Qed.

(** The names of [merged] are the names of the rows it was built from. *)
Lemma aggregate_days_names (l : list event) (n : pystr) :
  In n (map m_Name (aggregate_days l))
  <-> exists e, In e l /\ Name e = Some n.
Proof.
  split.
  - rewrite in_map_iff. intros [r [<- Hr]].
    apply aggregate_days_keys, group_keys_In in Hr.
    destruct Hr as [e [He [HN _]]]. exists e. auto.
  - intros [e [He HN]].
    assert (Hk : In (n, Date e) (group_keys l)).
    { apply group_keys_In. exists e. auto. }
    assert (Hg : In e (group l (n, Date e))) by (apply group_In; auto).
    destruct (map dt (group l (n, Date e))) as [|d t] eqn:G.
    { apply map_eq_nil in G. rewrite G in Hg. destruct Hg. }
    destruct (aggregate_days_row l _ d t Hk G) as [Hrow Heq].
    apply in_map_iff. eexists. split; [| exact Hrow].
    rewrite Heq. reflexivity.
Qed.

Lemma filter_key_once {A K : Type} (f : A -> K) (eqb : K -> K -> bool)
  (eqb_eq : forall a b, eqb a b = true <-> a = b) (l : list A) (k : K) :
  NoDup (map f l) -> In k (map f l) ->
  List.length (filter (fun e => eqb (f e) k) l) = 1%nat.
Proof.
  induction l as [|x t IH]; simpl; intros Hnd Hin; [destruct Hin |].
  inversion Hnd as [|? ? Hx Ht]; subst.
  destruct (eqb (f x) k) eqn:E.
  - apply eqb_eq in E. subst k. simpl. f_equal.
    clear IH Hin Hnd Ht. induction t as [|y t IH]; simpl; [reflexivity |].
    destruct (eqb (f y) (f x)) eqn:E.
    + apply eqb_eq in E. exfalso. apply Hx. left. exact E.
    + apply IH. intro H. apply Hx. right. exact H.
  - apply IH; [exact Ht |].
    destruct Hin as [Hin | Hin]; [| exact Hin].
    subst k. rewrite (proj2 (eqb_eq _ _) eq_refl) in E. discriminate.
Qed.

(** C10.  The keys of de-bursting and of aggregation hold the name, never
    the badge number: of the rows that share name, date and second, whatever
    their [EnNo], one survives; and the wide table has one row for each name
    that occurs among the rows, and no other row. *)
Theorem one_row_per_name (l : list event) (e1 e2 : event) (n : pystr) :
  In e1 l -> In e2 l ->
  Name e1 = Some n -> Name e2 = Some n ->
  Date e1 = Date e2 -> time_s e1 = time_s e2 ->
  List.length (filter (fun e => triple_eqb (key3 e) (key3 e1)) (deburst l))
  = 1%nat
  /\ exists t names,
       reshape (aggregate_days (deburst l)) = Ok t
       /\ name_column t = map Some names
       /\ NoDup names
       /\ (forall m, In m names <-> exists e, In e l /\ Name e = Some m)
       /\ (forall r, In r (t_rows t) ->
                     List.length r = List.length (t_columns t)).
Proof.
  intros H1 H2 N1 N2 HD HT. split.
  - apply (filter_key_once key3 triple_eqb triple_eqb_eq).
    + apply drop_duplicates_from_NoDup.
    + apply deburst_keys. apply in_map. exact H1.
  - assert (Hn : In n (map m_Name (aggregate_days (deburst l)))).
    { apply aggregate_days_names.
      assert (Hk : In (key3 e1) (map key3 (deburst l)))
        by (apply deburst_keys, in_map, H1).
      apply in_map_iff in Hk. destruct Hk as [e [Hk He]].
      exists e. split; [exact He |].
      unfold key3 in Hk. inversion Hk. congruence. }
    unfold reshape.
    destruct (aggregate_days (deburst l)) as [|r0 m] eqn:M; [destruct Hn |].
    eexists _, (level_values (map m_Name (r0 :: m))).
    split; [reflexivity |]. unfold name_column. cbn [t_rows t_columns].
    split; [rewrite map_map; reflexivity |].
    split; [apply str_lt_sorted_NoDup, level_values_sorted |].
    split.
    + intro x. rewrite level_values_In, <- M, aggregate_days_names.
      split; intros [e [He HN]].
      * exists e. split; [apply deburst_In, He | exact HN].
      * assert (Hk : In (key3 e) (map key3 (deburst l)))
          by (apply deburst_keys, in_map, He).
        apply in_map_iff in Hk. destruct Hk as [e' [Hk He']].
        exists e'. split; [exact He' |].
        unfold key3 in Hk. inversion Hk. congruence.
    + intros r Hr. apply in_map_iff in Hr. destruct Hr as [x [<- _]].
      cbn [List.length]. rewrite length_map. reflexivity.
Qed.

Lemma one_row_per_name_witness :
  In bounce_first (dated_rows bursty)
  /\ In bounce_second (dated_rows bursty)
  /\ EnNo bounce_first <> EnNo bounce_second
  /\ List.length (filter (fun e => triple_eqb (key3 e) (key3 bounce_first))
                         (deburst (dated_rows bursty))) = 1%nat
  /\ exists t names,
       reshape (aggregate_days (deburst (dated_rows bursty))) = Ok t
       /\ name_column t = map Some names
       /\ NoDup names
       /\ (forall m, In m names <->
                     exists e, In e (dated_rows bursty) /\ Name e = Some m)
       /\ (forall r, In r (t_rows t) ->
                     List.length r = List.length (t_columns t)).
Proof.
  assert (H1 : In bounce_first (dated_rows bursty))
    by (vm_compute; left; reflexivity).
  assert (H2 : In bounce_second (dated_rows bursty))
    by (vm_compute; right; left; reflexivity).
  split; [exact H1 |]. split; [exact H2 |].
  split; [vm_compute; discriminate |].
  exact (one_row_per_name (dated_rows bursty) bounce_first bounce_second
           (str "Asha") H1 H2 eq_refl eq_refl eq_refl eq_refl).
Defined.

(** On [two_days] the table has the row of Asha and the row of Bo. *)
Example two_days_name_column :
  option_map name_column (table_of (process_text parse_iso two_days))
  = Some [Some (str "Asha"); Some (str "Bo")].
Proof. vm_compute. reflexivity. Qed.

(** ** The order of the columns *)

Lemma pair_leb_total (a b : pystr * pystr) :
  pair_leb a b = false -> pair_leb b a = true.
Proof.
  unfold pair_leb. rewrite (pair_compare_antisym a b).
  destruct (pair_compare a b); simpl; congruence.
Qed.

Lemma pair_leb_trans (a b c : pystr * pystr) :
  pair_leb a b = true -> pair_leb b c = true -> pair_leb a c = true.
Proof.
  unfold pair_leb.
  destruct (pair_compare a b) eqn:E1; try discriminate;
    destruct (pair_compare b c) eqn:E2; try discriminate; intros _ _.
  - apply pair_compare_eq in E1, E2. subst. rewrite pair_compare_refl. reflexivity.
  - apply pair_compare_eq in E1. subst. rewrite E2. reflexivity.
  - apply pair_compare_eq in E2. subst. rewrite E1. reflexivity.
  - rewrite (pair_compare_lt_trans _ _ _ E1 E2). reflexivity.
Qed.

Lemma pair_le_antisym (a b : pystr * pystr) :
  pair_le a b -> pair_le b a -> a = b.
Proof.
  unfold pair_le, pair_leb. rewrite (pair_compare_antisym a b).
  destruct (pair_compare a b) eqn:E; simpl; try discriminate.
  intros _ _. apply pair_compare_eq, E.
Qed.

Lemma pair_lt_le (a b : pystr * pystr) : pair_lt a b -> pair_le a b.
Proof. unfold pair_lt, pair_le, pair_leb. intros ->. reflexivity. Qed.

(** A list sorted by [pair_le] and a strictly ascending list with the same
    elements are the same list. *)
Lemma sorted_perm_unique (l1 l2 : list (pystr * pystr)) :
  StronglySorted pair_le l1 -> StronglySorted pair_lt l2 ->
  Permutation l1 l2 -> l1 = l2.
Proof.
  intros H1. revert l2. induction H1 as [|a1 t1 Ht1 IH Ha1]; intros l2 H2 Hp.
  - apply Permutation_nil in Hp. subst. reflexivity.
  - destruct H2 as [|a2 t2 Ht2 Ha2].
    + apply Permutation_sym, Permutation_nil in Hp. discriminate.
    + rewrite Forall_forall in Ha1, Ha2.
      assert (E : a1 = a2).
      { apply pair_le_antisym.
        - assert (Hin : In a2 (a1 :: t1))
            by (eapply Permutation_in; [apply Permutation_sym, Hp | left; reflexivity]).
          destruct Hin as [-> | Hin]; [| apply Ha1, Hin].
          unfold pair_le, pair_leb. rewrite pair_compare_refl. reflexivity.
        - assert (Hin : In a1 (a2 :: t2))
            by (eapply Permutation_in; [apply Hp | left; reflexivity]).
          destruct Hin as [-> | Hin]; [| apply pair_lt_le, Ha2, Hin].
          unfold pair_le, pair_leb. rewrite pair_compare_refl. reflexivity. }
      subst a2. f_equal. apply IH; [exact Ht2 |].
      eapply Permutation_cons_inv. exact Hp.
Qed.

Lemma swap_unstack_columns (m : list merged_row) :
  swap_levels (unstack_columns m)
  = map (fun d => (d, str "IN")) (level_values (map m_Date m))
    ++ map (fun d => (d, str "OUT")) (level_values (map m_Date m))
    ++ map (fun d => (d, str "Hours")) (level_values (map m_Date m)).
Proof.
  unfold swap_levels, unstack_columns, value_columns.
  cbn [flat_map]. rewrite app_nil_r, !map_app, !map_map. reflexivity.
Qed.

Lemma blocks_perm (ds : list pystr) :
  Permutation
    (map (fun d => (d, str "IN")) ds ++ map (fun d => (d, str "OUT")) ds
     ++ map (fun d => (d, str "Hours")) ds)
    (flat_map date_block ds).
Proof.
  induction ds as [|d ds IH]; [constructor |].
  apply Permutation_sym. cbn [flat_map map date_block List.app].
  eapply Permutation_trans; [apply perm_swap |].
  apply perm_skip.
  eapply Permutation_trans; [apply perm_swap |].
  apply Permutation_cons_app.
  rewrite app_assoc. apply Permutation_cons_app. rewrite <- app_assoc.
  apply Permutation_sym, IH.
Qed.

Lemma date_block_first (ds : list pystr) (x : pystr * pystr) :
  In x (flat_map date_block ds) -> In (fst x) ds.
Proof.
  rewrite in_flat_map. intros [d' [Hd Hx]].
  destruct Hx as [<- | [<- | [<- | []]]]; exact Hd.
Qed.

Lemma blocks_sorted (ds : list pystr) :
  StronglySorted str_lt ds -> StronglySorted pair_lt (flat_map date_block ds).
Proof.
  induction 1 as [|d ds Hds IH Hd]; [constructor |].
  rewrite Forall_forall in Hd.
  assert (Hlater : forall c x, In x (flat_map date_block ds) ->
                               pair_lt (d, c) x).
  { intros c x Hx. apply date_block_first in Hx. apply Hd in Hx.
    unfold pair_lt, pair_compare. cbn [fst]. rewrite Hx. reflexivity. }
  assert (Hsame : forall c c', pystr_compare c c' = Lt -> pair_lt (d, c) (d, c')).
  { intros c c' Hc. unfold pair_lt, pair_compare. cbn [fst snd].
    rewrite (proj2 (pystr_compare_eq d d) eq_refl). exact Hc. }
  cbn [flat_map date_block List.app].
  repeat constructor; try exact IH;
    try (apply Hsame; reflexivity);
    try (rewrite Forall_forall; intros x Hx; apply Hlater, Hx).
Qed.

(** The labels of the value columns, whatever the rows are: the dates
    ascending, and under each date [Hours], [IN], [OUT]. *)
Lemma reshaped_columns_blocks (m : list merged_row) :
  reshaped_columns m = flat_map date_block (level_values (map m_Date m)).
Proof.
  unfold reshaped_columns, sort_index_columns.
  apply sorted_perm_unique.
  - apply (sort_by_sorted pair_leb pair_leb_total pair_leb_trans).
  - apply blocks_sorted, level_values_sorted.
  - eapply Permutation_trans; [apply sort_by_perm |].
    rewrite swap_unstack_columns. apply blocks_perm.
Qed.

(** C2, as the code has it.  The value columns of the table are grouped by
    date, the dates ascending, and the three columns of a date are never
    separated; but under each date they stand in the order [Hours], [IN],
    [OUT], not [IN], [OUT], [Hours], as soon as there is one date.  For
    [two_days] the labels are those of 2024-01-15 followed by those of
    2024-01-16, each block starting with [Hours]. *)
Theorem columns_by_date_then_label :
  (forall m r t, reshape (r :: m) = Ok t ->
     t_columns t
     = (str "Name", []) :: flat_map date_block (level_values (map m_Date (r :: m)))
     /\ t_columns t
        <> (str "Name", [])
           :: flat_map spec_date_block (level_values (map m_Date (r :: m))))
  /\ option_map t_columns (table_of (process_text parse_iso two_days))
     = Some [(str "Name", []);
             (str "2024-01-15", str "Hours"); (str "2024-01-15", str "IN");
             (str "2024-01-15", str "OUT");
             (str "2024-01-16", str "Hours"); (str "2024-01-16", str "IN");
             (str "2024-01-16", str "OUT")]
  /\ option_map (flatten_columns) (table_of (process_text parse_iso two_days))
     = Some [str "Name "; str "2024-01-15 Hours"; str "2024-01-15 IN";
             str "2024-01-15 OUT"; str "2024-01-16 Hours";
             str "2024-01-16 IN"; str "2024-01-16 OUT"].
Proof.
  split; [| split; vm_compute; reflexivity].
  intros m r t H. unfold reshape in H. inversion H; subst t; clear H.
  cbn [t_columns]. rewrite reshaped_columns_blocks. split; [reflexivity |].
  assert (Hne : level_values (map m_Date (r :: m)) <> []).
  { intro E. assert (Hin : In (m_Date r) (level_values (map m_Date (r :: m))))
      by (apply level_values_In; left; reflexivity).
    rewrite E in Hin. destruct Hin. }
  destruct (level_values (map m_Date (r :: m))) as [|d ds]; [contradiction |].
  cbn [flat_map date_block spec_date_block List.app].
  intro E. inversion E.
Qed.

(** ** Decoding *)

(** A file with an odd number of bytes is never valid UTF-16. *)
Lemma code_units_odd (big_endian : bool) (b : bytes) :
  Nat.odd (List.length b) = true -> code_units big_endian b = None.
Proof.
  assert (H : forall b, (Nat.odd (List.length b) = true ->
                         code_units big_endian b = None)
                        /\ forall x, Nat.odd (List.length (x :: b)) = true ->
                                     code_units big_endian (x :: b) = None).
  { induction b0 as [|y b0 [IH1 IH2]].
    - split; [discriminate | reflexivity].
    - split; [apply IH2 |].
      intros x Hx. cbn [code_units].
      change (Nat.odd (List.length (x :: y :: b0)))
        with (Nat.odd (List.length b0)) in Hx.
      rewrite (IH1 Hx). destruct ((x <? 256) && (y <? 256))%N; reflexivity. }
  apply H.
Qed.

Lemma utf_16_decode_odd (b : bytes) :
  Nat.odd (List.length b) = true -> utf_16_decode b = None.
Proof.
  intro H.
  assert (Hb : forall be, utf_16_body be b = None)
    by (intro be; unfold utf_16_body; rewrite code_units_odd; auto).
  assert (Hr : forall x y rest be, b = x :: y :: rest ->
                                   utf_16_body be rest = None).
  { intros x y rest be ->. unfold utf_16_body.
    rewrite code_units_odd; [reflexivity | exact H]. }
  unfold utf_16_decode.
  destruct b as [|x [|y rest]]; try apply Hb.
  destruct ((x =? 255) && (y =? 254))%N; [eapply Hr; reflexivity |].
  destruct ((x =? 254) && (y =? 255))%N; [eapply Hr; reflexivity | apply Hb].
Qed.

(** On ASCII text UTF-8 is the identity both ways. *)
Lemma utf_8_ascii (t : pystr) :
  Forall (fun c => (c < 128)%N) t ->
  utf_8_encode t = t /\ utf_8_decode t = Some t.
Proof.
  induction 1 as [|c t Hc Ht [IH1 IH2]]; [split; reflexivity |].
  apply N.ltb_lt in Hc. split.
  - unfold utf_8_encode in *. cbn [flat_map]. rewrite IH1.
    unfold utf_8_encode_char. rewrite Hc. reflexivity.
  - cbn [utf_8_decode]. rewrite Hc, IH2. reflexivity.
Qed.

Lemma decode_file_fallback (b : bytes) (text : pystr) :
  utf_16_decode b = None -> utf_8_decode b = Some text ->
  decode_file b = Ok text.
Proof. unfold decode_file. intros -> ->. reflexivity. Qed.

(** C9.  A file that is not valid UTF-16 but is valid UTF-8 is decoded by
    the second attempt, and everything downstream of the decoder gives on it
    what it gives on a UTF-16 file that holds the same text. *)
Theorem utf_8_fallback_same_output (parse : pystr -> option datetime)
  (b8 b16 : bytes) (text : pystr) :
  utf_16_decode b8 = None ->
  utf_8_decode b8 = Some text ->
  utf_16_decode b16 = Some text ->
  decode_file b8 = Ok text
  /\ decode_file b16 = Ok text
  /\ process_file parse b8 = process_file parse b16
  /\ run_page parse (Some b8) = run_page parse (Some b16).
Proof.
  intros H1 H2 H3.
  assert (E8 : decode_file b8 = Ok text) by (apply decode_file_fallback; assumption).
  assert (E16 : decode_file b16 = Ok text) by (unfold decode_file; rewrite H3; reflexivity).
  assert (P : process_file parse b8 = process_file parse b16)
    by (unfold process_file; rewrite E8, E16; reflexivity).
  repeat split; try assumption.
  unfold run_page. rewrite P. reflexivity.
Qed.

Lemma utf_8_fallback_same_output_witness :
  utf_16_decode (utf_8_encode bursty) = None
  /\ utf_8_decode (utf_8_encode bursty) = Some bursty
  /\ utf_16_decode (utf_16_encode bursty) = Some bursty
  /\ decode_file (utf_8_encode bursty) = Ok bursty
  /\ decode_file (utf_16_encode bursty) = Ok bursty
  /\ process_file parse_iso (utf_8_encode bursty)
     = process_file parse_iso (utf_16_encode bursty)
  /\ run_page parse_iso (Some (utf_8_encode bursty))
     = run_page parse_iso (Some (utf_16_encode bursty)).
Proof.
  assert (H1 : utf_16_decode (utf_8_encode bursty) = None)
    by (vm_compute; reflexivity).
  assert (H2 : utf_8_decode (utf_8_encode bursty) = Some bursty)
    by (vm_compute; reflexivity).
  assert (H3 : utf_16_decode (utf_16_encode bursty) = Some bursty)
    by (vm_compute; reflexivity).
  split; [exact H1 |]. split; [exact H2 |]. split; [exact H3 |].
  exact (utf_8_fallback_same_output parse_iso _ _ _ H1 H2 H3).
Defined.

(** Every ASCII text with an odd number of characters is read through the
    fallback when it comes as UTF-8. *)
Lemma ascii_odd_falls_back (t : pystr) :
  Forall (fun c => (c < 128)%N) t -> Nat.odd (List.length t) = true ->
  decode_file (utf_8_encode t) = Ok t.
Proof.
  intros Ha Ho. destruct (utf_8_ascii t Ha) as [E D]. rewrite E.
  apply decode_file_fallback; [apply utf_16_decode_odd, Ho | exact D].
Qed.

(** The fallback is taken only when the first attempt fails: the UTF-8
    file of [two_punches], of even length, is valid UTF-16 as well and is
    read as sixteen-bit units, after which the [Name] column is not found. *)
Example even_length_utf_8 :
  decode_file (utf_8_encode two_punches) <> Ok two_punches
  /\ process_file parse_iso (utf_8_encode two_punches) = Raise KeyError
  /\ option_map name_column
       (table_of (process_file parse_iso (utf_16_encode two_punches)))
     = Some [Some (str "Asha")].
Proof.
  repeat split; try (vm_compute; reflexivity).
  vm_compute. discriminate.
Qed.

(** ** Cleaning a timestamp *)

(** [before_dots] cuts the string at its first run of three dots: what is
    cut off is empty or starts with the three dots, and no three dots start
    inside what is kept. *)
Lemma before_dots_spec (s : pystr) :
  exists rest,
    s = before_dots s ++ rest
    /\ (rest = [] \/ startswith [DOT; DOT; DOT] rest = true)
    /\ forall p q, before_dots s = p ++ q -> q <> [] ->
                   startswith [DOT; DOT; DOT] (q ++ rest) = false.
Proof.
  induction s as [|c t [rest [E [Hr Hn]]]].
  - exists []. repeat split; auto.
    intros p q H Hq. apply eq_sym, app_eq_nil in H. destruct H. contradiction.
  - cbn [before_dots].
    destruct (startswith [DOT; DOT; DOT] (c :: t)) eqn:S.
    + exists (c :: t). repeat split; auto.
      intros p q H Hq. apply eq_sym, app_eq_nil in H. destruct H. contradiction.
    + exists rest. split; [cbn [List.app]; rewrite <- E; reflexivity |].
      split; [exact Hr |].
      intros p q H Hq. destruct p as [|c' p].
      * cbn [List.app] in H. subst q. cbn [List.app]. rewrite <- E. exact S.
      * cbn [List.app] in H. inversion H. subst. eapply Hn; eauto.
Qed.

(** A timestamp with a trailing annotation is read as the timestamp
    alone. *)
Example annotated_timestamp :
  clean_datetime parse_iso (Some (str "2024-01-16 09:10:00...x"))
  = Some (mk_datetime 2024 1 16 9 10 0 0)
  /\ DateTime_clean_of (Some (str " 2024-01-16 09:10:00 ... late"))
     = str "2024-01-16 09:10:00"
  /\ clean_datetime parse_iso (Some (str "garbage")) = None
  /\ clean_datetime parse_iso None = None.
Proof. repeat split; vm_compute; reflexivity. Qed.

(** What holds of unparsable rows: a row of the returned frame always carries the
    timestamp that the parser read from its cleaned [DateTime] cell, so a
    line whose cleaned string the parser rejects is in no returned frame. *)
Lemma unparsable_rows_never_returned
  (parse : pystr -> option datetime) (text : pystr) (e : event) :
  In e (events_of (process_text parse text)) ->
  clean_datetime parse (Some (DateTime_clean e)) = Some (dt e).
Proof.
  intro H. apply process_text_events in H.
  destruct H as [first [rest [evs [_ [Hp Hin]]]]].
  apply deburst_In in Hin.
  destruct (parse_rows_In parse first rest evs e Hp Hin)
    as [iN [iE [iD [_ [_ [_ [_ [_ [_ [_ [_ [Hdt _]]]]]]]]]]]].
  exact Hdt.
Qed.

(** * Further properties of the pipeline *)

(** ** Runs without data and runs that return *)

(** [process_file] returns its triple of [None]s for the empty text and for
    no other text; an empty upload, with or without a byte-order mark, shows
    the no-data message. *)
Theorem none_iff_empty_text (parse : pystr -> option datetime) (text : pystr) :
  (process_text parse text = Ok None <-> text = [])
  /\ run_page parse (Some []) = Ok NoDataParsed
  /\ run_page parse (Some (utf_16_encode [])) = Ok NoDataParsed.
Proof.
  split; [| split; reflexivity].
  split.
  - unfold process_text. destruct (splitlines text) as [|first rest] eqn:E.
    + intros _. apply splitlines_nil. exact E.
    + destruct (parse_rows parse first rest) as [evs | x]; cbn [bind];
        [| intro H; discriminate H].
      destruct (reshape (aggregate_days (deburst evs))); cbn [bind];
        intro H; discriminate H.
  - intros ->. reflexivity.
Qed.

Lemma deburst_nonempty (l : list event) : l <> [] -> deburst l <> [].
Proof.
  destruct l as [|e l]; [contradiction |]. intros _ H.
  assert (Hk : In (key3 e) (map key3 (deburst (e :: l))))
    by (apply deburst_keys; left; reflexivity).
  rewrite H in Hk. destruct Hk.
Qed.

(** The table of a non-empty [merged]. *)
Lemma reshape_Ok (m : list merged_row) (t : table) :
  reshape m = Ok t ->
  m <> []
  /\ t_columns t = (str "Name", []) :: reshaped_columns m
  /\ t_rows t = map (fun n => Some n :: map (table_cell m n) (reshaped_columns m))
                    (level_values (map m_Name m)).
Proof.
  destruct m as [|r m]; [discriminate |].
  intro H. injection H as <-. repeat split. discriminate.
Qed.

Lemma level_values_nonempty (l : list pystr) : l <> [] -> level_values l <> [].
Proof.
  destruct l as [|x l]; [contradiction |]. intros _ E.
  assert (H : In x (level_values (x :: l)))
    by (apply level_values_In; left; reflexivity).
  rewrite E in H. destruct H.
Qed.

(** A run that returns never returns an empty frame: [df] and [merged] have
    a row, and the table has a row and the columns of at least one date. *)
Theorem returned_frames_nonempty (parse : pystr -> option datetime)
  (text : pystr) (header : list pystr) (df : list event)
  (merged : list merged_row) (reshaped : table) :
  process_text parse text = Ok (Some (header, df, merged, reshaped)) ->
  df <> [] /\ merged <> [] /\ t_rows reshaped <> []
  /\ (4 <= List.length (t_columns reshaped))%nat.
Proof.
  unfold process_text. destruct (splitlines text) as [|first rest];
    [discriminate |].
  destruct (parse_rows parse first rest) as [evs | x] eqn:P; cbn [bind];
    [| discriminate].
  destruct (reshape (aggregate_days (deburst evs))) as [t | x] eqn:R; cbn [bind];
    [| discriminate].
  intro H. inversion H; subst; clear H.
  split; [apply deburst_nonempty, (parse_rows_nonempty _ _ _ _ P) |].
  apply reshape_Ok in R. destruct R as [Hm [Hc Hr]].
  split; [exact Hm |]. split.
  - rewrite Hr. intro E. apply map_eq_nil in E. revert E.
    apply level_values_nonempty. intro E. apply map_eq_nil in E. auto.
  - rewrite Hc, reshaped_columns_blocks.
    assert (Hd : level_values (map m_Date (aggregate_days (deburst evs))) <> []).
    { apply level_values_nonempty. intro E. apply map_eq_nil in E. auto. }
    destruct (level_values (map m_Date (aggregate_days (deburst evs))));
      [contradiction |].
    cbn [flat_map date_block List.app List.length]. lia.
Qed.

Lemma returned_frames_nonempty_witness :
  let '(header, df, merged, reshaped) := two_punches_frames in
  process_text parse_iso two_punches = Ok (Some (header, df, merged, reshaped))
  /\ df <> [] /\ merged <> [] /\ t_rows reshaped <> []
  /\ (4 <= List.length (t_columns reshaped))%nat.
Proof.
  unfold two_punches_frames.
  match goal with
  | |- ?lhs = ?rhs /\ _ =>
      assert (H : lhs = rhs) by (vm_compute; reflexivity);
      exact (conj H (returned_frames_nonempty parse_iso two_punches _ _ _ _ H))
  end.
Defined.



(** ** The rows of [merged] *)

Lemma key_of_merge_row (ins outs : list (gkey * datetime)) (k : gkey) :
  key_of (merge_row ins outs k) = k.
Proof. destruct k. reflexivity. Qed.

(** Every row of [merged] is the row of a group of the frame. *)
Lemma aggregate_days_shape (l : list event) (r : merged_row) :
  In r (aggregate_days l) ->
  exists d t,
    In (key_of r) (group_keys l)
    /\ map dt (group l (key_of r)) = d :: t
    /\ r = mk_merged_row (m_Name r) (m_Date r)
             (Some (min_dt d t)) (Some (max_dt d t))
             (Some (strftime_HM (min_dt d t))) (Some (strftime_HM (max_dt d t)))
             (Some (value (max_dt d t) - value (min_dt d t)))
             (format_duration (value (max_dt d t) - value (min_dt d t)))
    /\ value (min_dt d t) <= value (max_dt d t).
Proof.
  intro Hr. assert (Hk := aggregate_days_keys l r Hr).
  unfold aggregate_days, merge_outer in Hr. apply in_map_iff in Hr.
  destruct Hr as [k [Hrk _]].
  assert (Ek : key_of r = k) by (rewrite <- Hrk; apply key_of_merge_row).
  change (m_Name r, m_Date r) with (key_of r) in Hk. rewrite Ek in *.
  assert (Hg : exists e, In e (group l k)).
  { apply group_keys_In in Hk. destruct Hk as [e He]. exists e.
    apply group_In. exact He. }
  destruct (map dt (group l k)) as [|d t] eqn:G.
  { destruct Hg as [e He]. apply map_eq_nil in G. rewrite G in He. destruct He. }
  exists d, t.
  destruct (aggregate_days_row l k d t Hk G) as [_ Heq].
  assert (Hle : value (min_dt d t) <= value (max_dt d t)).
  { destruct (min_dt_spec d t) as [_ H1]. destruct (max_dt_spec d t) as [_ H2].
    eapply Z.le_trans; [apply H1 | apply H2]; left; reflexivity. }
  repeat split; auto.
  rewrite <- Hrk at 1. rewrite Heq. unfold duration_of.
  apply Z.leb_le in Hle. rewrite Hle. cbn [duration_str_of].
  rewrite <- Hrk, Heq. reflexivity.
Qed.

(** The guard of the [duration] lambda never fails on the rows that
    [process_file] builds: both ends are present, [OUT] is not before [IN],
    the duration is their non-negative difference and [duration_str] is
    never the empty string of the null case. *)
Theorem duration_never_null (l : list event) (r : merged_row) :
  In r (aggregate_days l) ->
  exists i o,
    IN r = Some i /\ OUT r = Some o
    /\ value i <= value o
    /\ duration r = Some (value o - value i)
    /\ 0 <= value o - value i
    /\ duration_str r = format_duration (value o - value i)
    /\ IN_str r = Some (strftime_HM i) /\ OUT_str r = Some (strftime_HM o).
Proof.
  intro Hr. destruct (aggregate_days_shape l r Hr) as [d [t [_ [_ [E Hle]]]]].
  exists (min_dt d t), (max_dt d t). rewrite E. cbn.
  repeat split; auto. apply Z.le_0_sub. exact Hle.
Qed.

Lemma duration_never_null_witness :
  In asha_first_day (aggregate_days (deburst (dated_rows two_days)))
  /\ exists i o,
       IN asha_first_day = Some i /\ OUT asha_first_day = Some o
       /\ value i <= value o
       /\ duration asha_first_day = Some (value o - value i)
       /\ 0 <= value o - value i
       /\ duration_str asha_first_day = format_duration (value o - value i)
       /\ IN_str asha_first_day = Some (strftime_HM i)
       /\ OUT_str asha_first_day = Some (strftime_HM o).
Proof.
  assert (H : In asha_first_day (aggregate_days (deburst (dated_rows two_days))))
    by (vm_compute; left; reflexivity).
  exact (conj H (duration_never_null _ _ H)).
Defined.

(** A day on which all punches of a person carry one timestamp, and so a
    day with a single punch, gives [IN] and [OUT] equal to that timestamp
    and a duration of zero, written [00:00]. *)
Theorem single_event_day (l : list event) (e : event) (n : pystr) :
  In e l -> Name e = Some n ->
  (forall e', In e' l -> Name e' = Some n -> Date e' = Date e -> dt e' = dt e) ->
  exists r,
    In r (aggregate_days l)
    /\ m_Name r = n /\ m_Date r = Date e
    /\ IN r = Some (dt e) /\ OUT r = Some (dt e)
    /\ IN_str r = OUT_str r
    /\ duration r = Some 0
    /\ duration_str r = str "00:00".
Proof.
  intros He Hn Hsame.
  set (k := (n, Date e)).
  assert (Hk : In k (group_keys l)) by (apply group_keys_In; exists e; auto).
  assert (Hg : In e (group l k)) by (apply group_In; auto).
  destruct (map dt (group l k)) as [|d t] eqn:G.
  { apply map_eq_nil in G. rewrite G in Hg. destruct Hg. }
  assert (Hall : forall x, In x (d :: t) -> x = dt e).
  { intros x Hx. rewrite <- G in Hx. apply in_map_iff in Hx.
    destruct Hx as [e' [<- He']]. apply group_In in He'.
    destruct He' as [H1 [H2 H3]]. apply Hsame; assumption. }
  destruct (aggregate_days_row l k d t Hk G) as [Hrow Heq].
  rewrite (Hall _ (proj1 (min_dt_spec d t))) in Heq.
  rewrite (Hall _ (proj1 (max_dt_spec d t))) in Heq.
  rewrite Heq in Hrow. eexists. split; [exact Hrow |].
  cbn [m_Name m_Date IN OUT IN_str OUT_str duration duration_str fst snd k].
  unfold duration_of. rewrite Z.leb_refl, Z.sub_diag.
  repeat split; reflexivity.
Qed.

Lemma single_event_day_witness :
  In asha_next_day (dated_rows two_days)
  /\ Name asha_next_day = Some (str "Asha")
  /\ (forall e', In e' (dated_rows two_days) -> Name e' = Some (str "Asha") ->
                 Date e' = Date asha_next_day -> dt e' = dt asha_next_day)
  /\ exists r,
       In r (aggregate_days (dated_rows two_days))
       /\ m_Name r = str "Asha" /\ m_Date r = Date asha_next_day
       /\ IN r = Some (dt asha_next_day) /\ OUT r = Some (dt asha_next_day)
       /\ IN_str r = OUT_str r
       /\ duration r = Some 0
       /\ duration_str r = str "00:00".
Proof.
  assert (H1 : In asha_next_day (dated_rows two_days))
    by (vm_compute; right; right; left; reflexivity).
  assert (H2 : Name asha_next_day = Some (str "Asha")) by reflexivity.
  assert (H3 : forall e', In e' (dated_rows two_days) ->
                          Name e' = Some (str "Asha") ->
                          Date e' = Date asha_next_day ->
                          dt e' = dt asha_next_day).
  { intros e' Hin. vm_compute in Hin.
    destruct Hin as [<- | [<- | [<- | [<- | []]]]]; intros HN HD;
      try reflexivity; vm_compute in HD; vm_compute in HN; discriminate. }
  split; [exact H1 |]. split; [exact H2 |]. split; [exact H3 |].
  exact (single_event_day _ _ _ H1 H2 H3).
Defined.

Lemma insert_key_sorted (k : gkey) (l : list gkey) :
  StronglySorted pair_lt l -> StronglySorted pair_lt (insert_key k l).
Proof.
  induction 1 as [|y t Ht IH Hy]; simpl.
  - constructor; constructor.
  - destruct (pair_compare k y) eqn:E.
    + constructor; assumption.
    + constructor; [constructor; assumption |].
      constructor; [exact E |].
      rewrite Forall_forall in *. intros z Hz.
      eapply pair_compare_lt_trans; [exact E | apply Hy, Hz].
    + constructor; [exact IH |].
      rewrite Forall_forall in *. intros z Hz.
      apply insert_key_In in Hz. destruct Hz as [-> | Hz]; [| apply Hy, Hz].
      unfold pair_lt. rewrite pair_compare_antisym, E. reflexivity.
Qed.

Lemma pair_lt_sorted_NoDup (l : list gkey) :
  StronglySorted pair_lt l -> NoDup l.
Proof.
  induction 1 as [|y t Ht IH Hy]; constructor; [| exact IH].
  intro Hin. rewrite Forall_forall in Hy. specialize (Hy y Hin).
  unfold pair_lt in Hy. rewrite pair_compare_refl in Hy. discriminate.
Qed.

(** [merged] has its rows in strictly ascending order of (name, date): one
    row for each pair, and exactly for the pairs of a named row of [df]. *)
Theorem merged_sorted_by_key (l : list event) :
  StronglySorted pair_lt (map key_of (aggregate_days l))
  /\ NoDup (map key_of (aggregate_days l))
  /\ forall n d, In (n, d) (map key_of (aggregate_days l))
                 <-> exists e, In e l /\ Name e = Some n /\ Date e = d.
Proof.
  assert (E : map key_of (aggregate_days l)
              = fold_right insert_key []
                  (map fst (groupby_min l) ++ map fst (groupby_max l))).
  { unfold aggregate_days, merge_outer. rewrite map_map.
    erewrite map_ext; [apply map_id |]. intro k. apply key_of_merge_row. }
  assert (S : StronglySorted pair_lt (map key_of (aggregate_days l))).
  { rewrite E. generalize (map fst (groupby_min l) ++ map fst (groupby_max l)).
    induction l0 as [|k ks IH]; simpl; [constructor | apply insert_key_sorted, IH]. }
  split; [exact S |]. split; [apply pair_lt_sorted_NoDup, S |].
  intros n d. rewrite E, fold_insert_key_In, in_app_iff.
  unfold groupby_min, groupby_max. rewrite !aggregate_keys, group_keys_In.
  cbn [fst snd]. tauto.
Qed.

Lemma group_keys_named (l : list event) :
  group_keys (filter named l) = group_keys l.
Proof.
  unfold group_keys. induction l as [|e l IH]; [reflexivity |].
  simpl. unfold named at 1. destruct (Name e) as [n|] eqn:En; simpl.
  - rewrite En, IH. reflexivity.
  - exact IH.
Qed.

Lemma group_named (l : list event) (k : gkey) :
  group (filter named l) k = group l k.
Proof.
  unfold group. induction l as [|e l IH]; [reflexivity |].
  simpl. unfold named at 1, in_group at 2.
  destruct (Name e) as [n|] eqn:En; simpl.
  - unfold in_group at 1. rewrite En, IH. reflexivity.
  - exact IH.
Qed.

(** A row without a name, which the filter of line 48 lets through, plays
    no part in the aggregation: [merged] is the same with and without such
    rows. *)
Theorem nameless_rows_ignored (l : list event) :
  aggregate_days l = aggregate_days (filter named l)
  /\ name_kept None = true /\ enno_kept None = true.
Proof.
  split; [| split; reflexivity].
  assert (F : forall f, aggregate f (filter named l) = aggregate f l).
  { intro f. unfold aggregate. rewrite group_keys_named.
    apply flat_map_ext. intro k. rewrite group_named. reflexivity. }
  unfold aggregate_days, groupby_min, groupby_max. rewrite !F. reflexivity.
Qed.

(** ** The duration string *)

(** [Hours] holds whole hours and whole minutes of the duration: seconds
    and fractions of a second are cut off, not rounded. *)
Theorem hours_truncate (h m s us : Z) :
  0 <= h -> 0 <= m < 60 -> 0 <= s < 60 -> 0 <= us < 1000000 ->
  format_duration (((h * 60 + m) * 60 + s) * 1000000 + us)
  = zfill 2 h ++ [COLON] ++ zfill 2 m.
Proof.
  intros Hh Hm Hs Hus. unfold format_duration.
  set (d := ((h * 60 + m) * 60 + s) * 1000000 + us).
  assert (E1 : d / 3600000000 = h).
  { symmetry. apply (Z.div_unique d 3600000000 h (d - 3600000000 * h)); unfold d; lia. }
  assert (E2 : d mod 3600000000 = d - 3600000000 * h).
  { symmetry. apply (Z.mod_unique d 3600000000 h (d - 3600000000 * h)); unfold d; lia. }
  assert (E3 : (d - 3600000000 * h) / 60000000 = m).
  { symmetry.
    apply (Z.div_unique (d - 3600000000 * h) 60000000 m
             (d - 3600000000 * h - 60000000 * m)); unfold d; lia. }
  rewrite E1, E2, E3. reflexivity.
Qed.

Lemma hours_truncate_witness :
  0 <= 9 /\ 0 <= 29 < 60 /\ 0 <= 59 < 60 /\ 0 <= 999999 < 1000000
  /\ format_duration (((9 * 60 + 29) * 60 + 59) * 1000000 + 999999)
     = zfill 2 9 ++ [COLON] ++ zfill 2 29.
Proof.
  assert (H1 : 0 <= 9) by lia. assert (H2 : 0 <= 29 < 60) by lia.
  assert (H3 : 0 <= 59 < 60) by lia. assert (H4 : 0 <= 999999 < 1000000) by lia.
  exact (conj H1 (conj H2 (conj H3 (conj H4 (hours_truncate 9 29 59 999999 H1 H2 H3 H4))))).
Defined.

(** ** The de-bursted frame *)

Lemma drop_duplicates_from_sorted (R : event -> event -> Prop)
  (seen : list triple) (l : list event) :
  StronglySorted R l -> StronglySorted R (drop_duplicates_from seen l).
Proof.
  intro H. revert seen. induction H as [|x t Ht IH Hx]; intros seen; simpl.
  - constructor.
  - destruct (existsb (triple_eqb (key3 x)) seen); [apply IH |].
    constructor; [apply IH |].
    rewrite Forall_forall in *. intros y Hy. apply Hx.
    eapply drop_duplicates_from_In. exact Hy.
Qed.

(** Sorting a sorted list changes nothing. *)
Lemma sort_by_sorted_id {A : Type} (leb : A -> A -> bool) (l : list A) :
  StronglySorted (fun a b => leb a b = true) l -> sort_by leb l = l.
Proof.
  induction 1 as [|x t Ht IH Hx]; [reflexivity |].
  simpl. fold (sort_by leb t). rewrite IH.
  destruct t as [|y t']; [reflexivity |].
  simpl. inversion Hx as [|? ? Hy _]; subst. rewrite Hy. reflexivity.
Qed.

(** Rows with distinct, unseen keys all survive. *)
Lemma drop_duplicates_from_id (seen : list triple) (l : list event) :
  NoDup (map key3 l) -> (forall k, In k (map key3 l) -> ~ In k seen) ->
  drop_duplicates_from seen l = l.
Proof.
  revert seen. induction l as [|x t IH]; intros seen Hnd Hs; [reflexivity |].
  simpl. inversion Hnd as [|? ? Hx Ht]; subst.
  assert (E : existsb (triple_eqb (key3 x)) seen = false).
  { apply seen_not_In. apply Hs. left. reflexivity. }
  rewrite E. f_equal. apply IH; [exact Ht |].
  intros k Hk [<- | Hin]; [contradiction |].
  apply (Hs k); [right; exact Hk | exact Hin].
Qed.

Lemma dt_leb_sorted (l : list event) :
  StronglySorted (fun a b => dt_leb a b = true) (sort_values l).
Proof.
  apply (sort_by_sorted dt_leb).
  - intros x y E. unfold dt_leb in *. apply Z.leb_le.
    apply Z.leb_gt in E. apply Z.lt_le_incl. exact E.
  - intros x y z E1 E2. unfold dt_leb in *. apply Z.leb_le.
    apply Z.leb_le in E1, E2. eapply Z.le_trans; eassumption.
Qed.

(** The frame [df] that [process_file] returns is in ascending order of
    [dt], no two of its rows share name, date and second, and de-bursting
    it once more keeps all of its rows. *)
Theorem deburst_sorted_idempotent (l : list event) :
  StronglySorted (fun a b => value (dt a) <= value (dt b)) (deburst l)
  /\ NoDup (map key3 (deburst l))
  /\ Permutation (deburst (deburst l)) (deburst l).
Proof.
  split; [| split].
  - unfold deburst, drop_duplicates.
    apply drop_duplicates_from_sorted, sort_values_sorted.
  - apply drop_duplicates_from_NoDup.
  - replace (deburst (deburst l)) with (deburst l);
      [apply Permutation_refl | symmetry].
    assert (S : StronglySorted (fun a b => dt_leb a b = true) (deburst l))
      by (apply drop_duplicates_from_sorted, dt_leb_sorted).
    unfold deburst at 1. unfold sort_values, drop_duplicates.
    rewrite (sort_by_sorted_id dt_leb _ S).
    apply drop_duplicates_from_id.
    + apply drop_duplicates_from_NoDup.
    + intros k _ [].
Qed.

(** ** The cells of the wide table *)

Lemma find_row_Some (n d : pystr) (m : list merged_row) (r : merged_row) :
  find_row n d m = Some r -> In r m /\ m_Name r = n /\ m_Date r = d.
Proof.
  induction m as [|x m IH]; simpl; [discriminate |].
  destruct (pystr_eqb (m_Name x) n && pystr_eqb (m_Date x) d) eqn:E.
  - intro H. inversion H; subst. apply andb_true_iff in E.
    destruct E as [E1 E2]. apply pystr_eqb_eq in E1, E2. auto.
  - intro H. destruct (IH H) as [H1 H2]. auto.
Qed.

Lemma find_row_None (n d : pystr) (m : list merged_row) :
  find_row n d m = None -> forall r, In r m -> key_of r <> (n, d).
Proof.
  induction m as [|x m IH]; simpl; [intros _ r [] |].
  destruct (pystr_eqb (m_Name x) n && pystr_eqb (m_Date x) d) eqn:E;
    [discriminate |].
  intros H r [<- | Hr]; [| apply IH; assumption].
  intro K. unfold key_of in K. inversion K; subst.
  rewrite !pystr_eqb_refl in E. discriminate.
Qed.

Lemma NoDup_map_inj {A B : Type} (f : A -> B) (l : list A) (a b : A) :
  NoDup (map f l) -> In a l -> In b l -> f a = f b -> a = b.
Proof.
  induction l as [|x l IH]; simpl; intros Hnd Ha Hb E; [destruct Ha |].
  inversion Hnd as [|? ? Hx Hl]; subst.
  destruct Ha as [-> | Ha], Hb as [-> | Hb]; auto.
  - exfalso. apply Hx. rewrite E. apply in_map. exact Hb.
  - exfalso. apply Hx. rewrite <- E. apply in_map. exact Ha.
Qed.

Lemma field_present (l : list event) (r : merged_row) (c : pystr) :
  In r (aggregate_days l) -> field c r <> None.
Proof.
  intro Hr. destruct (aggregate_days_shape l r Hr) as [d [t [_ [_ [E _]]]]].
  rewrite E. unfold field. cbn [IN_str OUT_str duration_str].
  destruct (pystr_eqb c (str "IN")); [discriminate |].
  destruct (pystr_eqb c (str "OUT")); discriminate.
Qed.

(** In the row of a person, the cell under a date label holds the value of
    that person's day when the person has an event on that date, and is
    the missing value (not an empty string) exactly when there is none. *)
Theorem table_cell_missing_iff (l : list event) (t : table)
  (row : list (option pystr)) (n : pystr) (j : nat) (d c : pystr) :
  reshape (aggregate_days l) = Ok t ->
  In row (t_rows t) -> hd None row = Some n ->
  nth_error (t_columns t) (S j) = Some (d, c) ->
  exists v,
    nth_error row (S j) = Some v
    /\ (v = None <-> ~ exists e, In e l /\ Name e = Some n /\ Date e = d)
    /\ forall r, In r (aggregate_days l) -> key_of r = (n, d) -> v = field c r.
Proof.
  intros R Hrow Hhd Hcol. apply reshape_Ok in R. destruct R as [_ [Hc Hr]].
  rewrite Hr in Hrow. apply in_map_iff in Hrow. destruct Hrow as [n' [<- _]].
  cbn [hd] in Hhd. inversion Hhd; subst n'; clear Hhd.
  rewrite Hc in Hcol. cbn [nth_error] in *.
  exists (table_cell (aggregate_days l) n (d, c)).
  split; [rewrite nth_error_map, Hcol; reflexivity |].
  destruct (merged_sorted_by_key l) as [_ [Hnd Hkeys]].
  unfold table_cell. cbn [fst snd].
  destruct (find_row n d (aggregate_days l)) as [r0|] eqn:F.
  - apply find_row_Some in F. destruct F as [H0 [N0 D0]].
    split; [split |].
    + intro E. exfalso. exact (field_present l r0 c H0 E).
    + intro H. exfalso. apply H. apply Hkeys.
      rewrite <- N0, <- D0. apply (in_map key_of). exact H0.
    + intros r Hr' Kr. f_equal.
      apply (NoDup_map_inj key_of (aggregate_days l)); auto.
      rewrite Kr. unfold key_of. rewrite N0, D0. reflexivity.
  - split; [split |].
    + intros _ H. apply Hkeys in H. apply in_map_iff in H.
      destruct H as [r [Kr Hr']]. exact (find_row_None n d _ F r Hr' Kr).
    + reflexivity.
    + intros r Hr' Kr. exfalso. exact (find_row_None n d _ F r Hr' Kr).
Qed.

Lemma table_cell_missing_iff_witness :
  reshape (aggregate_days (deburst (dated_rows two_days))) = Ok two_days_table
  /\ In bo_row (t_rows two_days_table)
  /\ hd None bo_row = Some (str "Bo")
  /\ nth_error (t_columns two_days_table) 2
     = Some (str "2024-01-15", str "IN")
  /\ exists v,
       nth_error bo_row 2 = Some v
       /\ (v = None <->
           ~ exists e, In e (deburst (dated_rows two_days))
                       /\ Name e = Some (str "Bo") /\ Date e = str "2024-01-15")
       /\ forall r, In r (aggregate_days (deburst (dated_rows two_days))) ->
                    key_of r = (str "Bo", str "2024-01-15") ->
                    v = field (str "IN") r.
Proof.
  assert (H1 : reshape (aggregate_days (deburst (dated_rows two_days)))
               = Ok two_days_table) by (vm_compute; reflexivity).
  assert (H2 : In bo_row (t_rows two_days_table))
    by (vm_compute; right; left; reflexivity).
  assert (H3 : hd None bo_row = Some (str "Bo")) by reflexivity.
  assert (H4 : nth_error (t_columns two_days_table) 2
               = Some (str "2024-01-15", str "IN")) by reflexivity.
  split; [exact H1 |]. split; [exact H2 |]. split; [exact H3 |].
  split; [exact H4 |].
  exact (table_cell_missing_iff _ _ _ _ 1 _ _ H1 H2 H3 H4).
Defined.

(** Bo has no event on 2024-01-15: the three cells of that date are
    missing in Bo's row, those of 2024-01-16 are filled. *)
Example bo_row_cells :
  bo_row = [Some (str "Bo"); None; None; None;
            Some (str "00:00"); Some (str "09:10"); Some (str "09:10")].
Proof. reflexivity. Qed.

(** The rows of the table stand in strictly ascending order of the name,
    one for each name of [merged]; every row is as long as the list of
    column labels. *)
Theorem table_rows_by_name (m : list merged_row) (t : table) :
  reshape m = Ok t ->
  exists names,
    name_column t = map Some names
    /\ StronglySorted str_lt names
    /\ (forall n, In n names <-> In n (map m_Name m))
    /\ forall row, In row (t_rows t) ->
                   List.length row = List.length (t_columns t).
Proof.
  intro R. apply reshape_Ok in R. destruct R as [_ [Hc Hr]].
  exists (level_values (map m_Name m)). unfold name_column.
  rewrite Hr, Hc, map_map. cbn [hd].
  split; [reflexivity |]. split; [apply level_values_sorted |].
  split; [intro n; apply level_values_In |].
  intros row Hrow. apply in_map_iff in Hrow. destruct Hrow as [n [<- _]].
  cbn [List.length]. rewrite length_map. reflexivity.
Qed.

Lemma table_rows_by_name_witness :
  reshape (aggregate_days (deburst (dated_rows two_days))) = Ok two_days_table
  /\ exists names,
       name_column two_days_table = map Some names
       /\ StronglySorted str_lt names
       /\ (forall n, In n names <->
                     In n (map m_Name
                             (aggregate_days (deburst (dated_rows two_days)))))
       /\ forall row, In row (t_rows two_days_table) ->
                      List.length row = List.length (t_columns two_days_table).
Proof.
  assert (H1 : reshape (aggregate_days (deburst (dated_rows two_days)))
               = Ok two_days_table) by (vm_compute; reflexivity).
  exact (conj H1 (table_rows_by_name _ _ H1)).
Defined.

Lemma flatten_blocks (ds : list pystr) :
  map (fun c : pystr * pystr => fst c ++ [32%N] ++ snd c)
      (flat_map date_block ds)
  = flat_map date_labels ds.
Proof.
  induction ds as [|d ds IH]; [reflexivity |].
  cbn [flat_map]. rewrite map_app, IH. reflexivity.
Qed.

(** The labels shown on the page and written to the CSV file: [Name]
    followed by a space, then for each date, ascending, the date followed
    by [ Hours], [ IN] and [ OUT]. *)
Theorem flattened_labels (m : list merged_row) (t : table) :
  reshape m = Ok t ->
  flatten_columns t
  = str "Name " :: flat_map date_labels (level_values (map m_Date m)).
Proof.
  intro R. apply reshape_Ok in R. destruct R as [_ [Hc _]].
  unfold flatten_columns. rewrite Hc, reshaped_columns_blocks.
  rewrite <- flatten_blocks. reflexivity.
Qed.

Lemma flattened_labels_witness :
  reshape (aggregate_days (deburst (dated_rows two_days))) = Ok two_days_table
  /\ flatten_columns two_days_table
     = str "Name "
       :: flat_map date_labels
            (level_values
               (map m_Date (aggregate_days (deburst (dated_rows two_days))))).
Proof.
  assert (H1 : reshape (aggregate_days (deburst (dated_rows two_days)))
               = Ok two_days_table) by (vm_compute; reflexivity).
  exact (conj H1 (flattened_labels _ _ H1)).
Defined.

(** ** The page *)

Lemma parse_rows_columns (parse : pystr -> option datetime)
  (first : pystr) (rest : list pystr) (evs : list event) :
  parse_rows parse first rest = Ok evs ->
  exists iName iEnNo iDateTime,
    position (str "Name") (header_of first) = Some iName
    /\ position (str "EnNo") (header_of first) = Some iEnNo
    /\ position (str "DateTime") (header_of first) = Some iDateTime.
Proof.
  intro H. assert (Hne := parse_rows_nonempty _ _ _ _ H).
  destruct evs as [|e evs]; [contradiction |].
  destruct (parse_rows_In parse first rest (e :: evs) e H (or_introl eq_refl))
    as [iN [iE [iD [HN [HE [HD _]]]]]].
  exists iN, iE, iD. auto.
Qed.

Lemma process_text_header (parse : pystr -> option datetime) (text : pystr)
  (header : list pystr) (df : list event) (merged : list merged_row)
  (reshaped : table) :
  process_text parse text = Ok (Some (header, df, merged, reshaped)) ->
  exists iName iEnNo iDateTime,
    position (str "Name") header = Some iName
    /\ position (str "EnNo") header = Some iEnNo
    /\ position (str "DateTime") header = Some iDateTime.
Proof.
  unfold process_text. destruct (splitlines text) as [|first rest];
    [discriminate |].
  destruct (parse_rows parse first rest) as [evs | x] eqn:P; cbn [bind];
    [| discriminate].
  destruct (reshape (aggregate_days (deburst evs))); cbn [bind];
    [| discriminate].
  intro H. inversion H; subst. eapply parse_rows_columns. exact P.
Qed.

(** After a run of [process_file] that returned its frames, the page is
    completed exactly when the header also names the columns [In/Out] and
    [Mode]: the expander selects them from [df], and the selection raises
    [KeyError] when one of them is missing. *)
Theorem page_needs_inout_and_mode (parse : pystr -> option datetime)
  (f : bytes) (header : list pystr) (df : list event)
  (merged : list merged_row) (reshaped : table) :
  process_file parse f = Ok (Some (header, df, merged, reshaped)) ->
  (position (str "In/Out") header = None \/ position (str "Mode") header = None ->
   run_page parse (Some f) = Raise KeyError)
  /\ (position (str "In/Out") header <> None ->
      position (str "Mode") header <> None ->
      exists rows,
        run_page parse (Some f)
        = Ok (Tables (flatten_columns reshaped) (t_rows reshaped) rows)
        /\ List.length rows = List.length df).
Proof.
  intro P.
  assert (Hcols : exists iName iEnNo iDateTime,
             position (str "Name") header = Some iName
             /\ position (str "EnNo") header = Some iEnNo
             /\ position (str "DateTime") header = Some iDateTime).
  { unfold process_file in P. destruct (decode_file f) as [text | x];
      [| discriminate]. cbn [bind] in P.
    eapply process_text_header. exact P. }
  destruct Hcols as [iN [iE [iD [HN [HE HD]]]]].
  unfold run_page. rewrite P. cbn [bind].
  unfold detail_columns. cbn [positions]. rewrite HN, HE.
  destruct (position (str "In/Out") header) as [iIO|] eqn:EIO;
    destruct (position (str "Mode") header) as [iM|] eqn:EM;
    rewrite ?HD; cbn [bind]; split.
  - intros [H | H]; discriminate.
  - intros _ _. eexists. split; [reflexivity |]. apply length_map.
  - intros _. reflexivity.
  - intros _ H. exfalso. apply H. reflexivity.
  - intros _. reflexivity.
  - intros H. exfalso. apply H. reflexivity.
  - intros _. reflexivity.
  - intros H. exfalso. apply H. reflexivity.
Qed.

Lemma page_needs_inout_and_mode_witness :
  let '(header, df, merged, reshaped) := three_columns_frames in
  process_file parse_iso (utf_16_encode three_columns)
  = Ok (Some (header, df, merged, reshaped))
  /\ (position (str "In/Out") header = None
      \/ position (str "Mode") header = None)
  /\ run_page parse_iso (Some (utf_16_encode three_columns)) = Raise KeyError.
Proof.
  unfold three_columns_frames.
  match goal with
  | |- ?lhs = ?rhs /\ ?c /\ _ =>
      assert (H : lhs = rhs) by (vm_compute; reflexivity);
      assert (H' : c) by (left; vm_compute; reflexivity);
      exact (conj H (conj H'
               (proj1 (page_needs_inout_and_mode parse_iso _ _ _ _ _ H) H')))
  end.
Defined.

(** ** Trimming *)

Lemma lstrip_split (s : pystr) :
  exists a, all_space a /\ s = a ++ lstrip s.
Proof.
  induction s as [|c t [a [Ha E]]]; simpl.
  - exists []. split; [constructor | reflexivity].
  - destruct (isspace c) eqn:S.
    + exists (c :: a). split; [constructor; assumption |].
      simpl. f_equal. exact E.
    + exists []. split; [constructor | reflexivity].
Qed.

Lemma lstrip_head (s : pystr) (c : char) (t : pystr) :
  lstrip s = c :: t -> isspace c = false.
Proof.
  induction s as [|x s IH]; simpl; [discriminate |].
  destruct (isspace x) eqn:S; [exact IH |].
  intro H. inversion H; subst. exact S.
Qed.

Lemma lstrip_id (c : char) (t : pystr) :
  isspace c = false -> lstrip (c :: t) = c :: t.
Proof. intro H. simpl. rewrite H. reflexivity. Qed.

Lemma lstrip_space_app (a s : pystr) :
  all_space a -> lstrip (a ++ s) = lstrip s.
Proof.
  induction 1 as [|c a Hc Ha IH]; simpl; [reflexivity |].
  rewrite Hc. exact IH.
Qed.

Lemma lstrip_nil_iff (s : pystr) : lstrip s = [] <-> all_space s.
Proof.
  split.
  - destruct (lstrip_split s) as [a [Ha E]]. intro H. rewrite H, app_nil_r in E.
    subst. exact Ha.
  - intro H. rewrite <- (app_nil_r s). rewrite lstrip_space_app; auto.
Qed.

Lemma all_space_rev (s : pystr) : all_space s -> all_space (rev s).
Proof.
  unfold all_space. rewrite !Forall_forall. intros H c Hc.
  apply H. apply in_rev. exact Hc.
Qed.

Lemma rstrip_split (s : pystr) :
  exists b, all_space b /\ s = rstrip s ++ b.
Proof.
  unfold rstrip. destruct (lstrip_split (rev s)) as [a [Ha E]].
  exists (rev a). split; [apply all_space_rev, Ha |].
  rewrite <- rev_app_distr, <- E, rev_involutive. reflexivity.
Qed.

(** What [strip] returns lies between two runs of whitespace, and neither
    starts nor ends with whitespace. *)
Lemma strip_split (s : pystr) :
  exists a b, all_space a /\ all_space b /\ s = a ++ strip s ++ b.
Proof.
  unfold strip. destruct (lstrip_split s) as [a [Ha Ea]].
  destruct (rstrip_split (lstrip s)) as [b [Hb Eb]].
  exists a, b. repeat split; auto. rewrite <- Eb. exact Ea.
Qed.

Lemma strip_first (s : pystr) (c : char) (t : pystr) :
  strip s = c :: t -> isspace c = false.
Proof.
  unfold strip. intro H.
  destruct (rstrip_split (lstrip s)) as [b [_ E]]. rewrite H in E.
  simpl in E. eapply lstrip_head. exact E.
Qed.

Lemma strip_last (s : pystr) (c : char) (t : pystr) :
  rev (strip s) = c :: t -> isspace c = false.
Proof.
  unfold strip, rstrip. rewrite rev_involutive. apply lstrip_head.
Qed.

Lemma strip_fixed (x : pystr) :
  (forall c t, x = c :: t -> isspace c = false) ->
  (forall c t, rev x = c :: t -> isspace c = false) ->
  strip x = x.
Proof.
  intros H1 H2. unfold strip, rstrip.
  assert (L : lstrip x = x).
  { destruct x as [|c t]; [reflexivity |]. apply lstrip_id. eapply H1. reflexivity. }
  rewrite L.
  assert (R : lstrip (rev x) = rev x).
  { destruct (rev x) as [|c t] eqn:E; [reflexivity |].
    apply lstrip_id. eapply H2. reflexivity. }
  rewrite R. apply rev_involutive.
Qed.

Lemma strip_idempotent (s : pystr) : strip (strip s) = strip s.
Proof.
  apply strip_fixed; intros c t H; [eapply strip_first | eapply strip_last];
    exact H.
Qed.

Lemma strip_between (a x b : pystr) :
  all_space a -> all_space b -> strip x = x -> strip (a ++ x ++ b) = x.
Proof.
  intros Ha Hb Hx. destruct x as [|c t].
  - rewrite app_nil_l.
    assert (S : all_space (a ++ b)) by (apply Forall_app; split; assumption).
    unfold strip. rewrite (proj2 (lstrip_nil_iff _) S). reflexivity.
  - assert (Hc : isspace c = false) by (eapply strip_first; exact Hx).
    unfold strip. rewrite lstrip_space_app by exact Ha.
    cbn [List.app]. rewrite (lstrip_id c (t ++ b) Hc).
    unfold rstrip. change (c :: t ++ b) with ((c :: t) ++ b).
    rewrite rev_app_distr.
    rewrite lstrip_space_app by (apply all_space_rev, Hb).
    unfold strip, rstrip in Hx. rewrite (lstrip_id c t Hc) in Hx. exact Hx.
Qed.

(** The filter of line 48 removes a row for its name exactly when the
    [Name] cell is made of whitespace only, and for its badge number exactly
    when the [EnNo] cell is [00000000] with whitespace around it. *)
Theorem filter_removes_exactly (s : pystr) :
  (name_kept (Some s) = false <-> all_space s)
  /\ (enno_kept (Some s) = false
      <-> exists a b, all_space a /\ all_space b
                      /\ s = a ++ str "00000000" ++ b).
Proof.
  split.
  - unfold name_kept. rewrite negb_false_iff, pystr_eqb_eq. split.
    + intro H. destruct (strip_split s) as [a [b [Ha [Hb E]]]].
      rewrite H in E. rewrite E. apply Forall_app. split; assumption.
    + intro H. unfold strip. rewrite (proj2 (lstrip_nil_iff s) H). reflexivity.
  - unfold enno_kept. rewrite negb_false_iff, pystr_eqb_eq. split.
    + intro H. destruct (strip_split s) as [a [b [Ha [Hb E]]]].
      exists a, b. rewrite H in E. auto.
    + intros [a [b [Ha [Hb ->]]]]. apply strip_between; auto.
Qed.

(** ** Cleaning twice *)

Lemma startswith_app (p q r : pystr) :
  startswith p q = true -> startswith p (q ++ r) = true.
Proof.
  revert q. induction p as [|a p IH]; intros q; [reflexivity |].
  destruct q as [|b q]; simpl; [discriminate |].
  rewrite !andb_true_iff. intros [H1 H2]. split; [exact H1 | apply IH, H2].
Qed.

Lemma before_dots_no_dots (s : pystr) : no_dots (before_dots s).
Proof.
  destruct (before_dots_spec s) as [rest [_ [_ H]]].
  intros p q E. destruct q as [|c q]; [reflexivity |].
  destruct (startswith [DOT; DOT; DOT] (c :: q)) eqn:S; [| reflexivity].
  apply (startswith_app _ _ rest) in S.
  rewrite (H p (c :: q) E) in S; [discriminate S | discriminate].
Qed.

Lemma no_dots_between (a x b : pystr) : no_dots (a ++ x ++ b) -> no_dots x.
Proof.
  intros H p q E. subst x.
  destruct (startswith [DOT; DOT; DOT] q) eqn:S; [| reflexivity].
  apply (startswith_app _ _ b) in S.
  rewrite (H (a ++ p) (q ++ b)) in S; [discriminate S |].
  rewrite <- !app_assoc. reflexivity.
Qed.

Lemma no_dots_before_dots (x : pystr) : no_dots x -> before_dots x = x.
Proof.
  induction x as [|c t IH]; intro H; [reflexivity |].
  cbn [before_dots]. rewrite (H [] (c :: t) eq_refl). f_equal. apply IH.
  intros p q E. apply (H (c :: p) q). rewrite E. reflexivity.
Qed.

(** [clean_datetime] repeats on the [DateTime_clean] column the cleaning
    that produced it; the repetition changes nothing, so [dt] is the
    parser's reading of the [DateTime_clean] cell itself. *)
Theorem cleaning_twice (parse : pystr -> option datetime) (x : option pystr) :
  clean_datetime parse (Some (DateTime_clean_of x))
  = parse (DateTime_clean_of x)
  /\ DateTime_clean_of (Some (DateTime_clean_of x)) = DateTime_clean_of x.
Proof.
  assert (E : strip (before_dots (DateTime_clean_of x)) = DateTime_clean_of x).
  { destruct x as [s|]; [| reflexivity]. cbn [DateTime_clean_of].
    destruct (strip_split (before_dots s)) as [a [b [_ [_ F]]]].
    assert (N : no_dots (strip (before_dots s))).
    { apply (no_dots_between a _ b). rewrite <- F. apply before_dots_no_dots. }
    rewrite (no_dots_before_dots _ N). apply strip_idempotent. }
  split; [unfold clean_datetime; rewrite E; reflexivity | exact E].
Qed.

(** ** Decoding: what the first attempt accepts *)

Lemma list_pair_ind {A : Type} (P : list A -> Prop) :
  P [] -> (forall x, P [x]) -> (forall x y l, P l -> P (x :: y :: l)) ->
  forall l, P l.
Proof.
  intros H0 H1 H2.
  assert (H : forall l, P l /\ forall x, P (x :: l)).
  { induction l as [|y l [IH1 IH2]].
    - split; [exact H0 | exact H1].
    - split; [apply IH2 | intro x; apply H2, IH1]. }
  intro l. apply H.
Qed.

Lemma join_surrogates_plain (u : list N) :
  Forall (fun w => (w < 0xD800)%N) u -> join_surrogates u = Some u.
Proof.
  induction 1 as [|w u Hw Hu IH]; [reflexivity |].
  cbn [join_surrogates]. apply N.ltb_lt in Hw. rewrite Hw, IH. reflexivity.
Qed.

Lemma code_units_ascii (t : bytes) :
  Forall (fun c => (c < 128)%N) t -> Nat.even (List.length t) = true ->
  exists u, code_units false t = Some u
            /\ Forall (fun w => (w < 0xD800)%N) u
            /\ List.length t = (2 * List.length u)%nat.
Proof.
  induction t as [| x | x y l IH] using list_pair_ind; intros Ha He.
  - exists []. repeat split. constructor.
  - discriminate.
  - inversion Ha as [|? ? Hx Ha']; subst. inversion Ha' as [|? ? Hy Hl]; subst.
    destruct (IH Hl He) as [u [E [Hu L]]].
    exists ((x + 256 * y)%N :: u). cbn [code_units].
    assert (B : ((x <? 256) && (y <? 256))%N = true).
    { apply andb_true_iff. split; apply N.ltb_lt; lia. }
    rewrite B, E. repeat split.
    + constructor; [lia | exact Hu].
    + cbn [List.length]. lia.
Qed.

(** An ASCII file with an even number of bytes is valid UTF-16: when it was
    written as UTF-8, the first attempt of [decode_file] accepts it all the
    same and returns half as many characters, so the text is not the one
    that was written and the UTF-8 attempt is never made. *)
Theorem ascii_even_read_as_utf_16 (t : pystr) :
  Forall (fun c => (c < 128)%N) t -> Nat.even (List.length t) = true ->
  exists u, decode_file (utf_8_encode t) = Ok u
            /\ List.length t = (2 * List.length u)%nat
            /\ (t <> [] -> u <> t).
Proof.
  intros Ha He. destruct (utf_8_ascii t Ha) as [E _]. rewrite E.
  destruct (code_units_ascii t Ha He) as [u [C [Hu L]]].
  exists u. split; [| split; [exact L |]].
  - unfold decode_file.
    assert (D : utf_16_decode t = Some u).
    { unfold utf_16_decode, utf_16_body.
      destruct t as [|x [|y rest]]; [| discriminate |].
      - cbn in C. inversion C. reflexivity.
      - inversion Ha as [|? ? Hx _]; subst.
        assert (B1 : (x =? 255)%N = false) by (apply N.eqb_neq; lia).
        assert (B2 : (x =? 254)%N = false) by (apply N.eqb_neq; lia).
        rewrite B1, B2. cbn [andb]. rewrite C.
        apply join_surrogates_plain, Hu. }
    rewrite D. reflexivity.
  - intros Hne Eq. subst u. destruct t as [|x t]; [contradiction |].
    cbn [List.length] in L. lia.
Qed.

Lemma ascii_even_read_as_utf_16_witness :
  Forall (fun c => (c < 128)%N) two_punches
  /\ Nat.even (List.length two_punches) = true
  /\ exists u, decode_file (utf_8_encode two_punches) = Ok u
               /\ List.length two_punches = (2 * List.length u)%nat
               /\ (two_punches <> [] -> u <> two_punches).
Proof.
  assert (H1 : Forall (fun c => (c < 128)%N) two_punches).
  { assert (F : forallb (fun c => (c <? 128)%N) two_punches = true)
      by (vm_compute; reflexivity).
    apply Forall_forall. intros c Hc. apply N.ltb_lt.
    exact (proj1 (forallb_forall _ _) F c Hc). }
  assert (H2 : Nat.even (List.length two_punches) = true) by reflexivity.
  exact (conj H1 (conj H2 (ascii_even_read_as_utf_16 _ H1 H2))).
Defined.

(** ** Decoding: what was written as UTF-16 is read back *)

Section Utf16RoundTrip.
Local Open Scope N_scope.

Lemma utf_16_decode_bom (b : bytes) :
  utf_16_decode (0xFF :: 0xFE :: b) = utf_16_body false b.
Proof. reflexivity. Qed.

Lemma code_units_word (w : N) (rest : bytes) :
  w < 65536 ->
  code_units false (w mod 256 :: w / 256 :: rest)
  = option_map (cons w) (code_units false rest).
Proof.
  intro Hw. cbn [code_units].
  assert (E : w = 256 * (w / 256) + w mod 256) by (apply N.div_mod; lia).
  assert (B1 : w mod 256 < 256) by (apply N.mod_lt; lia).
  assert (B2 : w / 256 < 256) by (apply N.Div0.div_lt_upper_bound; lia).
  set (q := w / 256) in *. set (r := w mod 256) in *. clearbody q r.
  apply N.ltb_lt in B1, B2. rewrite B1, B2. cbn [andb].
  replace (r + 256 * q) with w by lia. reflexivity.
Qed.

Lemma code_units_char (c : N) (rest : bytes) :
  c < 0x110000 ->
  code_units false (utf_16_encode_char c ++ rest)
  = option_map (List.app (utf_16_units c)) (code_units false rest).
Proof.
  intro Hc. unfold utf_16_encode_char, utf_16_units.
  destruct (N.ltb_spec c 0x10000) as [H | H].
  - cbn [List.app]. rewrite code_units_word by exact H.
    destruct (code_units false rest); reflexivity.
  - cbv zeta.
    assert (E : c - 0x10000 = 0x400 * ((c - 0x10000) / 0x400) + (c - 0x10000) mod 0x400)
      by (apply N.div_mod; lia).
    assert (B1 : (c - 0x10000) mod 0x400 < 0x400) by (apply N.mod_lt; lia).
    assert (B2 : (c - 0x10000) / 0x400 < 0x400)
      by (apply N.Div0.div_lt_upper_bound; lia).
    set (q := (c - 0x10000) / 0x400) in *.
    set (r := (c - 0x10000) mod 0x400) in *. clearbody q r.
    cbn [List.app].
    rewrite code_units_word by lia. rewrite code_units_word by lia.
    destruct (code_units false rest); reflexivity.
Qed.

Lemma join_surrogates_char (c : N) (rest : list N) :
  scalar c = true ->
  join_surrogates (utf_16_units c ++ rest)
  = option_map (cons c) (join_surrogates rest).
Proof.
  unfold scalar, utf_16_units. intro Hs.
  assert (Hc : c < 0xD800 \/ (0xDFFF < c /\ c < 0x110000)).
  { apply orb_true_iff in Hs. destruct Hs as [Hs | Hs].
    - left. apply N.ltb_lt, Hs.
    - right. apply andb_true_iff in Hs. destruct Hs as [H1 H2].
      split; apply N.ltb_lt; assumption. }
  clear Hs.
  destruct (N.ltb_spec c 0x10000) as [H | H].
  - cbn [List.app join_surrogates].
    assert (B : (c <? 0xD800) || (0xDFFF <? c) = true).
    { apply orb_true_iff. destruct Hc as [Hc | [Hc _]];
        [left | right]; apply N.ltb_lt; exact Hc. }
    rewrite B. reflexivity.
  - assert (E : c - 0x10000 = 0x400 * ((c - 0x10000) / 0x400) + (c - 0x10000) mod 0x400)
      by (apply N.div_mod; lia).
    assert (B1 : (c - 0x10000) mod 0x400 < 0x400) by (apply N.mod_lt; lia).
    assert (B2 : (c - 0x10000) / 0x400 < 0x400)
      by (apply N.Div0.div_lt_upper_bound; lia).
    set (q := (c - 0x10000) / 0x400) in *.
    set (r := (c - 0x10000) mod 0x400) in *. clearbody q r.
    cbn [List.app join_surrogates].
    assert (T1 : (0xD800 + q <? 0xD800) || (0xDFFF <? 0xD800 + q) = false).
    { apply orb_false_iff. split; [apply N.ltb_ge | apply N.ltb_ge]; lia. }
    assert (T2 : (0xD800 + q <? 0xDC00) = true) by (apply N.ltb_lt; lia).
    assert (T3 : (0xDC00 <=? 0xDC00 + r) && (0xDC00 + r <=? 0xDFFF) = true).
    { apply andb_true_iff. split; apply N.leb_le; lia. }
    rewrite T1, T2, T3.
    replace (0x10000 + (0xD800 + q - 0xD800) * 0x400 + (0xDC00 + r - 0xDC00)) with c by lia.
    reflexivity.
Qed.

Lemma code_units_encode (t : pystr) :
  Forall (fun c => scalar c = true) t ->
  code_units false (flat_map utf_16_encode_char t)
  = Some (flat_map utf_16_units t).
Proof.
  induction 1 as [|c t Hc Ht IH]; [reflexivity |].
  cbn [flat_map]. rewrite code_units_char, IH; [reflexivity |].
  unfold scalar in Hc. apply orb_true_iff in Hc. destruct Hc as [Hc | Hc].
  - apply N.ltb_lt in Hc. lia.
  - apply andb_true_iff in Hc. destruct Hc as [_ Hc]. apply N.ltb_lt, Hc.
Qed.

Lemma join_surrogates_units (t : pystr) :
  Forall (fun c => scalar c = true) t ->
  join_surrogates (flat_map utf_16_units t) = Some t.
Proof.
  induction 1 as [|c t Hc Ht IH]; [reflexivity |].
  cbn [flat_map]. rewrite join_surrogates_char, IH by exact Hc. reflexivity.
Qed.

(** Every text of valid code points that was written as UTF-16, with the
    byte-order mark and little-endian units of [str.encode('utf-16')], is
    read back by [decode_file] as it was written, at the first attempt. *)
Theorem utf_16_round_trip (t : pystr) :
  Forall (fun c => scalar c = true) t ->
  utf_16_decode (utf_16_encode t) = Some t
  /\ decode_file (utf_16_encode t) = Ok t.
Proof.
  intro H.
  assert (D : utf_16_decode (utf_16_encode t) = Some t).
  { unfold utf_16_encode. rewrite utf_16_decode_bom. unfold utf_16_body.
    rewrite (code_units_encode t H). apply join_surrogates_units, H. }
  split; [exact D | unfold decode_file; rewrite D; reflexivity].
Qed.

End Utf16RoundTrip.

Lemma utf_16_round_trip_witness :
  Forall (fun c => scalar c = true) [8364%N; 128512%N; 233%N; 65%N]
  /\ utf_16_decode (utf_16_encode [8364%N; 128512%N; 233%N; 65%N])
     = Some [8364%N; 128512%N; 233%N; 65%N]
  /\ decode_file (utf_16_encode [8364%N; 128512%N; 233%N; 65%N])
     = Ok [8364%N; 128512%N; 233%N; 65%N].
Proof.
  assert (H : Forall (fun c => scalar c = true)
                     [8364%N; 128512%N; 233%N; 65%N])
    by (repeat constructor).
  exact (conj H (utf_16_round_trip _ H)).
Defined.

(** ** Decoding: what was written as UTF-8 *)

Section Utf8RoundTrip.
Local Open Scope N_scope.

Lemma is_cont_true (b : N) : 0x80 <= b -> b <= 0xBF -> is_cont b = true.
Proof.
  intros H1 H2. unfold is_cont. apply andb_true_iff.
  split; apply N.leb_le; assumption.
Qed.

Lemma guard_true (b0 k b1 lo : N) :
  (b0 = k -> lo <= b1) -> negb (b0 =? k) || (lo <=? b1) = true.
Proof.
  intro H. destruct (N.eqb_spec b0 k) as [E | E]; [| reflexivity].
  cbn [negb orb]. apply N.leb_le, H, E.
Qed.

Lemma guard_true' (b0 k b1 hi : N) :
  (b0 = k -> b1 <= hi) -> negb (b0 =? k) || (b1 <=? hi) = true.
Proof.
  intro H. destruct (N.eqb_spec b0 k) as [E | E]; [| reflexivity].
  cbn [negb orb]. apply N.leb_le, H, E.
Qed.

Lemma utf_8_decode_1 (b0 : N) (rest : bytes) :
  b0 < 0x80 ->
  utf_8_decode (b0 :: rest) = option_map (cons b0) (utf_8_decode rest).
Proof.
  intro H. cbn [utf_8_decode]. apply N.ltb_lt in H. rewrite H. reflexivity.
Qed.

Lemma utf_8_decode_2 (b0 b1 : N) (rest : bytes) :
  0xC2 <= b0 -> b0 <= 0xDF -> 0x80 <= b1 -> b1 <= 0xBF ->
  utf_8_decode (b0 :: b1 :: rest)
  = option_map (cons ((b0 - 0xC0) * 64 + (b1 - 0x80))) (utf_8_decode rest).
Proof.
  intros H1 H2 H3 H4. cbn [utf_8_decode].
  assert (A : (b0 <? 0x80) = false) by (apply N.ltb_ge; lia).
  assert (B : (0xC2 <=? b0) && (b0 <=? 0xDF) = true)
    by (apply andb_true_iff; split; apply N.leb_le; assumption).
  rewrite A, B, (is_cont_true b1 H3 H4). reflexivity.
Qed.

Lemma utf_8_decode_3 (b0 b1 b2 : N) (rest : bytes) :
  0xE0 <= b0 -> b0 <= 0xEF ->
  0x80 <= b1 -> b1 <= 0xBF -> 0x80 <= b2 -> b2 <= 0xBF ->
  (b0 = 0xE0 -> 0xA0 <= b1) -> (b0 = 0xED -> b1 <= 0x9F) ->
  utf_8_decode (b0 :: b1 :: b2 :: rest)
  = option_map (cons ((b0 - 0xE0) * 4096 + (b1 - 0x80) * 64 + (b2 - 0x80)))
               (utf_8_decode rest).
Proof.
  intros H1 H2 H3 H4 H5 H6 G1 G2. cbn [utf_8_decode].
  assert (A : (b0 <? 0x80) = false) by (apply N.ltb_ge; lia).
  assert (B : (0xC2 <=? b0) && (b0 <=? 0xDF) = false).
  { apply andb_false_iff. right. apply N.leb_gt. lia. }
  assert (C : (0xE0 <=? b0) && (b0 <=? 0xEF) = true)
    by (apply andb_true_iff; split; apply N.leb_le; assumption).
  rewrite A, B, C, (is_cont_true b1 H3 H4), (is_cont_true b2 H5 H6).
  rewrite (guard_true b0 0xE0 b1 0xA0 G1), (guard_true' b0 0xED b1 0x9F G2).
  reflexivity.
Qed.

Lemma utf_8_decode_4 (b0 b1 b2 b3 : N) (rest : bytes) :
  0xF0 <= b0 -> b0 <= 0xF4 ->
  0x80 <= b1 -> b1 <= 0xBF -> 0x80 <= b2 -> b2 <= 0xBF ->
  0x80 <= b3 -> b3 <= 0xBF ->
  (b0 = 0xF0 -> 0x90 <= b1) -> (b0 = 0xF4 -> b1 <= 0x8F) ->
  utf_8_decode (b0 :: b1 :: b2 :: b3 :: rest)
  = option_map (cons ((b0 - 0xF0) * 262144 + (b1 - 0x80) * 4096
                      + (b2 - 0x80) * 64 + (b3 - 0x80)))
               (utf_8_decode rest).
Proof.
  intros H1 H2 H3 H4 H5 H6 H7 H8 G1 G2. cbn [utf_8_decode].
  assert (A : (b0 <? 0x80) = false) by (apply N.ltb_ge; lia).
  assert (B : (0xC2 <=? b0) && (b0 <=? 0xDF) = false).
  { apply andb_false_iff. right. apply N.leb_gt. lia. }
  assert (C : (0xE0 <=? b0) && (b0 <=? 0xEF) = false).
  { apply andb_false_iff. right. apply N.leb_gt. lia. }
  assert (D : (0xF0 <=? b0) && (b0 <=? 0xF4) = true)
    by (apply andb_true_iff; split; apply N.leb_le; assumption).
  rewrite A, B, C, D.
  rewrite (is_cont_true b1 H3 H4), (is_cont_true b2 H5 H6), (is_cont_true b3 H7 H8).
  rewrite (guard_true b0 0xF0 b1 0x90 G1), (guard_true' b0 0xF4 b1 0x8F G2).
  reflexivity.
Qed.

Ltac divmod64 c q r :=
  let E := fresh "E" in
  let B := fresh "B" in
  assert (E : c = 64 * (c / 64) + c mod 64) by (apply N.div_mod; lia);
  assert (B : c mod 64 < 64) by (apply N.mod_lt; lia);
  set (q := c / 64) in *; set (r := c mod 64) in *; clearbody q r.

Lemma utf_8_decode_char (c : N) (rest : bytes) :
  scalar c = true ->
  utf_8_decode (utf_8_encode_char c ++ rest)
  = option_map (cons c) (utf_8_decode rest).
Proof.
  intro Hs.
  assert (Hc : c < 0xD800 \/ (0xDFFF < c /\ c < 0x110000)).
  { unfold scalar in Hs. apply orb_true_iff in Hs. destruct Hs as [Hs | Hs].
    - left. apply N.ltb_lt, Hs.
    - right. apply andb_true_iff in Hs. destruct Hs as [H1 H2].
      split; apply N.ltb_lt; assumption. }
  clear Hs. unfold utf_8_encode_char.
  destruct (N.ltb_spec c 0x80) as [H1 | H1].
  { cbn [List.app]. apply utf_8_decode_1, H1. }
  destruct (N.ltb_spec c 0x800) as [H2 | H2].
  { cbn [List.app]. divmod64 c q r.
    rewrite utf_8_decode_2 by lia.
    replace ((0xC0 + q - 0xC0) * 64 + (0x80 + r - 0x80)) with c by lia.
    reflexivity. }
  destruct (N.ltb_spec c 0x10000) as [H3 | H3].
  { cbn [List.app].
    replace (c / 4096) with (c / 64 / 64) by (rewrite N.Div0.div_div; reflexivity).
    divmod64 c q r. divmod64 q q2 r2.
    rewrite utf_8_decode_3 by lia.
    replace ((0xE0 + q2 - 0xE0) * 4096 + (0x80 + r2 - 0x80) * 64 + (0x80 + r - 0x80))
      with c by lia.
    reflexivity. }
  cbn [List.app].
  replace (c / 262144) with (c / 64 / 64 / 64)
    by (rewrite !N.Div0.div_div; reflexivity).
  replace (c / 4096) with (c / 64 / 64) by (rewrite N.Div0.div_div; reflexivity).
  divmod64 c q r. divmod64 q q2 r2. divmod64 q2 q3 r3.
  rewrite utf_8_decode_4 by lia.
  replace ((0xF0 + q3 - 0xF0) * 262144 + (0x80 + r3 - 0x80) * 4096
           + (0x80 + r2 - 0x80) * 64 + (0x80 + r - 0x80)) with c by lia.
  reflexivity.
Qed.

Lemma utf_8_decode_encode (t : pystr) :
  Forall (fun c => scalar c = true) t ->
  utf_8_decode (utf_8_encode t) = Some t.
Proof.
  induction 1 as [|c t Hc Ht IH]; [reflexivity |].
  unfold utf_8_encode in *. cbn [flat_map].
  rewrite utf_8_decode_char, IH by exact Hc. reflexivity.
Qed.

End Utf8RoundTrip.

(** A text of valid code points written as UTF-8 never makes [decode_file]
    raise, and is read back as it was written whenever its bytes are not
    valid UTF-16, for one when their number is odd. *)
Theorem utf_8_files_decoded (t : pystr) :
  Forall (fun c => scalar c = true) t ->
  utf_8_decode (utf_8_encode t) = Some t
  /\ (exists u, decode_file (utf_8_encode t) = Ok u)
  /\ (utf_16_decode (utf_8_encode t) = None ->
      decode_file (utf_8_encode t) = Ok t)
  /\ (Nat.odd (List.length (utf_8_encode t)) = true ->
      decode_file (utf_8_encode t) = Ok t).
Proof.
  intro H. assert (D := utf_8_decode_encode t H).
  split; [exact D |]. split; [| split].
  - unfold decode_file. destruct (utf_16_decode (utf_8_encode t)) as [u|].
    + exists u. reflexivity.
    + exists t. rewrite D. reflexivity.
  - intro E. apply decode_file_fallback; assumption.
  - intro O. apply decode_file_fallback; [apply utf_16_decode_odd, O | exact D].
Qed.

Lemma utf_8_files_decoded_witness :
  Forall (fun c => scalar c = true) [8364%N; 128512%N; 233%N]
  /\ utf_8_decode (utf_8_encode [8364%N; 128512%N; 233%N])
     = Some [8364%N; 128512%N; 233%N]
  /\ (exists u, decode_file (utf_8_encode [8364%N; 128512%N; 233%N]) = Ok u)
  /\ (utf_16_decode (utf_8_encode [8364%N; 128512%N; 233%N]) = None ->
      decode_file (utf_8_encode [8364%N; 128512%N; 233%N])
      = Ok [8364%N; 128512%N; 233%N])
  /\ (Nat.odd (List.length (utf_8_encode [8364%N; 128512%N; 233%N])) = true ->
      decode_file (utf_8_encode [8364%N; 128512%N; 233%N])
      = Ok [8364%N; 128512%N; 233%N]).
Proof.
  assert (H : Forall (fun c => scalar c = true) [8364%N; 128512%N; 233%N])
    by (repeat constructor).
  exact (conj H (utf_8_files_decoded _ H)).
Defined.

(** The euro sign, an emoji and an accented letter take nine bytes in
    UTF-8, an odd number: the file is read through the fallback. *)
Example nine_bytes :
  List.length (utf_8_encode [8364%N; 128512%N; 233%N]) = 9%nat
  /\ decode_file (utf_8_encode [8364%N; 128512%N; 233%N])
     = Ok [8364%N; 128512%N; 233%N].
Proof. split; vm_compute; reflexivity. Qed.

(** ** Whitespace at the ends of a line *)

Lemma strip_pad (a l b : pystr) :
  all_space a -> all_space b -> strip (a ++ l ++ b) = strip l.
Proof.
  intros Ha Hb. destruct (strip_split l) as [a' [b' [Ha' [Hb' E]]]].
  rewrite E at 1.
  replace (a ++ (a' ++ strip l ++ b') ++ b)
    with ((a ++ a') ++ strip l ++ (b' ++ b))
    by (rewrite <- !app_assoc; reflexivity).
  apply strip_between.
  - apply Forall_app. split; assumption.
  - apply Forall_app. split; assumption.
  - apply strip_idempotent.
Qed.

(** Every line is trimmed before it is split on tabs, and a tab is
    whitespace: blanks and tabs at either end of a line, that is empty first
    and last fields, are gone before the fields are counted, in the header
    line and in the data lines alike. *)
Theorem edge_whitespace_dropped (a l b : pystr) :
  all_space a -> all_space b ->
  header_of (a ++ l ++ b) = header_of l
  /\ data_of [a ++ l ++ b] = data_of [l]
  /\ isspace TAB = true.
Proof.
  intros Ha Hb. assert (E := strip_pad a l b Ha Hb).
  split; [unfold header_of; rewrite E; reflexivity |].
  split; [| reflexivity].
  unfold data_of, nonblank. cbn [filter]. rewrite E.
  destruct (strip l) eqn:S; cbn [map]; rewrite ?E, ?S; reflexivity.
Qed.

Lemma edge_whitespace_dropped_witness :
  all_space [] /\ all_space [TAB; TAB]
  /\ header_of ([] ++ str "Asha" ++ [TAB; TAB]) = header_of (str "Asha")
  /\ data_of [[] ++ str "Asha" ++ [TAB; TAB]] = data_of [str "Asha"]
  /\ isspace TAB = true.
Proof.
  assert (H1 : all_space []) by constructor.
  assert (H2 : all_space [TAB; TAB]) by (repeat constructor).
  exact (conj H1 (conj H2 (edge_whitespace_dropped [] (str "Asha") [TAB; TAB] H1 H2))).
Defined.

(** When the last column is empty in every data line, the data lines are
    one field short of the header and the frame cannot be built. *)
Example empty_last_field_raises :
  process_text parse_iso empty_last_field = Raise ValueError.
Proof. vm_compute. reflexivity. Qed.
